(** * Peppo AI video generator: prompt enhancement and the generate-video endpoint

    A shallow embedding of [main.py]: the rule-based prompt enhancer
    [enhance_prompt], the request handler [generate_video] and the
    [health_check] endpoint, together with
    the Python string and bytes operations they call ([str.strip],
    [str.lower], [in], [len], [base64.b64encode], [bytes.decode]).

    Python strings are sequences of Unicode code points; they are modelled
    as lists of code points ([list N]).  Python's logging calls, the call to
    the inference provider and raised exceptions are modelled by a small
    trace-and-error monad. *)

From Stdlib Require Import List NArith ZArith Bool Lia String Ascii.
From Stdlib.Strings Require Import Byte.
Import ListNotations.

Set Implicit Arguments.

(** ** Python [str] *)

Module PyStr.

(** A Python string: the list of its code points. *)
Definition str : Type := list N.

(** A string literal of the source; every literal of [main.py] that the
    model embeds is ASCII, so a character is its own code point. *)
Definition lit (s : string) : str :=
  List.map N_of_ascii (list_ascii_of_string s).

Definition len (s : str) : nat := List.length s.

(** [str.isspace] on one code point, as [str.strip()] uses it: the ASCII
    white space 0x09-0x0D, 0x1C-0x1F and 0x20, and the Unicode white space
    0x85, 0xA0, 0x1680, 0x2000-0x200A, 0x2028, 0x2029, 0x202F, 0x205F,
    0x3000. *)
Definition isspace (c : N) : bool :=
  ((9 <=? c) && (c <=? 13) || (28 <=? c) && (c <=? 32)
   || (c =? 133) || (c =? 160) || (c =? 5760)
   || (8192 <=? c) && (c <=? 8202)
   || (c =? 8232) || (c =? 8233) || (c =? 8239) || (c =? 8287)
   || (c =? 12288))%N.

Fixpoint lstrip (s : str) : str :=
  match s with
  | [] => []
  | c :: rest => if isspace c then lstrip rest else s
  end.

Definition rstrip (s : str) : str := rev (lstrip (rev s)).

(** [s.strip()] *)
Definition strip (s : str) : str := rstrip (lstrip s).

(** Lower-casing of one ASCII code point. *)
Definition ascii_lower (c : N) : N :=
  if ((65 <=? c) && (c <=? 90))%N then (c + 32)%N else c.

Section Lower.

(** The lower-case mapping of the Unicode character database for a code
    point outside ASCII: it may give several code points, and for the
    capital sigma it depends on the text before and after. *)
Variable unicode_lower : str -> N -> str -> str.

Definition lower_char (before : str) (c : N) (after : str) : str :=
  if (c <? 128)%N then [ascii_lower c] else unicode_lower before c after.

Fixpoint lower_from (before s : str) : str :=
  match s with
  | [] => []
  | c :: rest => lower_char before c rest ++ lower_from (before ++ [c]) rest
  end.

(** [s.lower()] *)
Definition lower (s : str) : str := lower_from [] s.

End Lower.

Fixpoint startswith (s k : str) {struct k} : bool :=
  match k, s with
  | [], _ => true
  | _ :: _, [] => false
  | a :: k', b :: s' => (a =? b)%N && startswith s' k'
  end.

(** [k in s]: [k] occurs in [s] as a contiguous run. *)
Fixpoint contains (k s : str) : bool :=
  startswith s k
  || match s with
     | [] => false
     | _ :: rest => contains k rest
     end.

(** [s.split()]: the maximal runs of non-space code points. *)
Fixpoint split_from (cur : str) (s : str) : list str :=
  match s with
  | [] => match cur with [] => [] | _ => [rev cur] end
  | c :: rest =>
      if isspace c
      then match cur with
           | [] => split_from [] rest
           | _ => rev cur :: split_from [] rest
           end
      else split_from (c :: cur) rest
  end.

Definition split (s : str) : list str := split_from [] s.

Definition eqb (a b : str) : bool :=
  (len a =? len b)%nat && startswith a b.

End PyStr.

Import PyStr.


(** ** Python [bytes], [base64.b64encode] and [bytes.decode('utf-8')] *)

Module PyBytes.

Definition bytes : Type := list byte.

Definition alphabet : list byte :=
  list_byte_of_string
    "ABCDEFGHIJKLMNOPQRSTUVWXYZabcdefghijklmnopqrstuvwxyz0123456789+/".

(** The character of the [i]-th 6-bit group (counted from the least
    significant) of the 24-bit number [n]. *)
Definition sextet (n : N) (i : N) : byte :=
  nth (N.to_nat (N.land (N.shiftr n (6 * i)) 63)) alphabet "A"%byte.

Definition pad : byte := "="%byte.

(** [base64.b64encode]: three bytes give four characters; a last group of
    one or two bytes is padded with [=]. *)
Fixpoint b64encode (bs : bytes) : bytes :=
  match bs with
  | [] => []
  | [a] =>
      let n := (Byte.to_N a * 65536)%N in
      [sextet n 3; sextet n 2; pad; pad]
  | [a; b] =>
      let n := (Byte.to_N a * 65536 + Byte.to_N b * 256)%N in
      [sextet n 3; sextet n 2; sextet n 1; pad]
  | a :: b :: c :: rest =>
      let n := (Byte.to_N a * 65536 + Byte.to_N b * 256 + Byte.to_N c)%N in
      sextet n 3 :: sextet n 2 :: sextet n 1 :: sextet n 0 :: b64encode rest
  end.

Definition continuation (lo hi : N) (b : byte) : bool :=
  ((lo <=? Byte.to_N b) && (Byte.to_N b <=? hi))%N.

Definition low6 (b : byte) : N := (Byte.to_N b - 128)%N.

(** [bs.decode('utf-8')]: [None] stands for [UnicodeDecodeError].  Overlong
    forms, surrogates and code points above 0x10FFFF are refused, as
    Python's strict decoder does. *)
Fixpoint decode_utf8 (bs : bytes) : option str :=
  match bs with
  | [] => Some []
  | b0 :: r0 =>
      let n0 := Byte.to_N b0 in
      if (n0 <? 128)%N then option_map (cons n0) (decode_utf8 r0)
      else if ((194 <=? n0) && (n0 <=? 223))%N then
        match r0 with
        | b1 :: r1 =>
            if continuation 128 191 b1
            then option_map (cons ((n0 - 192) * 64 + low6 b1)%N)
                            (decode_utf8 r1)
            else None
        | _ => None
        end
      else if ((224 <=? n0) && (n0 <=? 239))%N then
        match r0 with
        | b1 :: b2 :: r2 =>
            let lo := if (n0 =? 224)%N then 160%N else 128%N in
            let hi := if (n0 =? 237)%N then 159%N else 191%N in
            if continuation lo hi b1 && continuation 128 191 b2
            then option_map
                   (cons ((n0 - 224) * 4096 + low6 b1 * 64 + low6 b2)%N)
                   (decode_utf8 r2)
            else None
        | _ => None
        end
      else if ((240 <=? n0) && (n0 <=? 244))%N then
        match r0 with
        | b1 :: b2 :: b3 :: r3 =>
            let lo := if (n0 =? 240)%N then 144%N else 128%N in
            let hi := if (n0 =? 244)%N then 143%N else 191%N in
            if continuation lo hi b1 && continuation 128 191 b2
               && continuation 128 191 b3
            then option_map
                   (cons ((n0 - 240) * 262144 + low6 b1 * 4096
                          + low6 b2 * 64 + low6 b3)%N)
                   (decode_utf8 r3)
            else None
        | _ => None
        end
      else None
  end.

(** The text of an ASCII byte string. *)
Definition ascii_text (bs : bytes) : str := List.map Byte.to_N bs.

End PyBytes.

Import PyBytes.


(** ** Effects: logging, the provider call and exceptions *)

Inductive level : Type := INFO | WARNING | ERROR.

Inductive category : Type :=
  | cinematic | nature | action | portrait | urban | technical.

(** One constructor per [logger] call of the modelled functions, with the
    values its message interpolates.  [VideoGenerated] keeps the byte count;
    the size in megabytes that the same line prints is computed from it. *)
Inductive log_line : Type :=
  | AppliedEnhancements (c : category)
  | EnhancementComplete (user_prompt : str) (additional : Z)
  | GenerationWithoutToken
  | InvalidPrompt (prompt : str)
  | PromptTooLong (length : nat)
  | GenerationStarted (timestamp : str)
  | OriginalPrompt (original_prompt : str)
  | EnhancedPrompt (enhanced_prompt : str)
  | CallingModel
  | VideoGenerated (size : nat)
  | GenerationCompleted
  | GenerationFailed (error_message : str)
  | RateLimitExceeded
  | QuotaExceeded
  | AuthenticationFailed.

Inductive event : Type :=
  | Log (lv : level) (line : log_line)
  | TextToVideo (prompt : str) (model : str).

(** A computation that leaves a trace of events and either raises an
    exception of type [E] or returns a value. *)
Definition M (E A : Type) : Type := (list event * (E + A))%type.

Definition ret {E A} (a : A) : M E A := ([], inr a).

Definition raise {E A} (e : E) : M E A := ([], inl e).

Definition bind {E A B} (m : M E A) (k : A -> M E B) : M E B :=
  match m with
  | (t, inl e) => (t, inl e)
  | (t, inr a) => let (t', r) := k a in (t ++ t', r)
  end.

Definition emit {E} (ev : event) : M E unit := ([ev], inr tt).

Definition log {E} (lv : level) (line : log_line) : M E unit :=
  emit (Log lv line).

(** [try: body except Exception as e: handler(e)] *)
Definition try_except {E E' A} (body : M E A) (handler : E -> M E' A)
  : M E' A :=
  match body with
  | (t, inr a) => (t, inr a)
  | (t, inl e) => let (t', r) := handler e in (t ++ t', r)
  end.

Declare Scope py_scope.
Delimit Scope py_scope with py.
Notation "x <- c1 ;; c2" := (bind c1 (fun x => c2))
  (at level 61, c1 at next level, right associativity) : py_scope.
Notation "c1 ;; c2" := (bind c1 (fun _ => c2))
  (at level 61, right associativity) : py_scope.
Open Scope py_scope.

Definition trace {E A} (m : M E A) : list event := fst m.

Definition returns {E A} (m : M E A) (a : A) : Prop := snd m = inr a.

Definition raises {E A} (m : M E A) (e : E) : Prop := snd m = inl e.

(** ** [enhance_prompt] *)

Definition enhancement_database (key : category) : str :=
  match key with
  | cinematic =>
      lit "cinematic lighting, professional cinematography, high quality, smooth motion"
  | nature =>
      lit "beautiful natural scenery, natural lighting, peaceful atmosphere, HD quality"
  | action =>
      lit "dynamic movement, exciting motion, fast-paced action, high energy"
  | portrait =>
      lit "detailed facial features, realistic rendering, good lighting, clear focus"
  | urban =>
      lit "modern city atmosphere, urban environment, vibrant details, contemporary style"
  | technical =>
      lit "5 seconds duration, HD quality, smooth transitions, professional grade"
  end.

Definition portrait_keywords : list str :=
  List.map lit ["person"; "man"; "woman"; "people"; "human"; "character"]%string.

Definition action_keywords : list str :=
  List.map lit ["run"; "jump"; "fast"; "action"; "dance"; "sport"; "racing"]%string.

Definition nature_keywords : list str :=
  List.map lit
    ["forest"; "ocean"; "mountain"; "nature"; "tree"; "flower"; "landscape"]%string.

Definition urban_keywords : list str :=
  List.map lit ["city"; "street"; "building"; "car"; "urban"; "downtown"]%string.

Section Program.

(** Python's lower-case mapping outside ASCII (see [PyStr.lower]). *)
Variable unicode_lower : str -> N -> str -> str.

(** The text of the [UnicodeDecodeError] that decoding a byte string
    raises. *)
Variable utf8_error_message : bytes -> str.

(** [any(keyword in text for keyword in keywords)] *)
Definition any_in (keywords : list str) (text : str) : bool :=
  existsb (fun keyword => contains keyword text) keywords.

Definition enhance_prompt {E} (user_prompt : str) : M E str :=
  let enhanced := strip user_prompt in
  enhanced <-
    (if any_in portrait_keywords (lower unicode_lower user_prompt) then
       let enhanced := enhanced ++ lit ", " ++ enhancement_database portrait in
       log INFO (AppliedEnhancements portrait) ;; ret enhanced
     else if any_in action_keywords (lower unicode_lower user_prompt) then
       let enhanced := enhanced ++ lit ", " ++ enhancement_database action in
       log INFO (AppliedEnhancements action) ;; ret enhanced
     else if any_in nature_keywords (lower unicode_lower user_prompt) then
       let enhanced := enhanced ++ lit ", " ++ enhancement_database nature in
       log INFO (AppliedEnhancements nature) ;; ret enhanced
     else if any_in urban_keywords (lower unicode_lower user_prompt) then
       let enhanced := enhanced ++ lit ", " ++ enhancement_database urban in
       log INFO (AppliedEnhancements urban) ;; ret enhanced
     else
       let enhanced := enhanced ++ lit ", " ++ enhancement_database cinematic in
       log INFO (AppliedEnhancements cinematic) ;; ret enhanced) ;;
  let enhanced := enhanced ++ lit ", " ++ enhancement_database technical in
  log INFO (EnhancementComplete user_prompt
              (Z.of_nat (len enhanced) - Z.of_nat (len user_prompt))) ;;
  ret enhanced.

(** ** [generate_video] *)

Inductive http_exception : Type :=
  | HTTPException (status_code : nat) (detail : str).

(** What [client.text_to_video] does: it returns bytes (or [None]), or it
    raises an exception, kept as the text [str(e)] that the handler reads. *)
Inductive provider_result : Type :=
  | Returned (video_bytes : option bytes)
  | Raised (message : str).

(** The process-wide configuration a request runs in: the credential read
    from the environment, the inference client (absent when its
    initialisation failed) and the clock. *)
Record environment : Type := {
  HF_TOKEN : option str;
  client : option (str -> str -> provider_result);
  now : str
}.

Record response_data : Type := {
  status : str;
  video_data : str;
  enhanced_prompt : str;
  original_prompt : str;
  model_used : str;
  generation_timestamp : str;
  video_size_bytes : nat;
  enhancement_applied : bool
}.

(** Truth value of [HF_TOKEN]: [None] and the empty string are false. *)
Definition truthy (token : option str) : bool :=
  match token with
  | Some (_ :: _) => true
  | _ => false
  end.

Definition is_empty (s : str) : bool :=
  match s with [] => true | _ => false end.

Definition model_name : str := lit "Wan-AI/Wan2.2-TI2V-5B".

(** [client.text_to_video(prompt, model=model)]; with no [client] bound the
    name lookup raises [NameError] before any call is made. *)
Definition text_to_video (env : environment) (prompt model : str)
  : M str (option bytes) :=
  match client env with
  | None => raise (lit "name 'client' is not defined")
  | Some call =>
      emit (TextToVideo prompt model) ;;
      match call prompt model with
      | Returned video_bytes => ret video_bytes
      | Raised message => raise message
      end
  end.

Definition decode (bs : bytes) : M str str :=
  match decode_utf8 bs with
  | Some s => ret s
  | None => raise (utf8_error_message bs)
  end.

Definition generate_video (env : environment) (prompt : str)
  : M http_exception response_data :=
  if negb (truthy (HF_TOKEN env)) then
    log ERROR GenerationWithoutToken ;;
    raise (HTTPException 500
             (lit "API token not configured - please contact administrator"))
  else if is_empty prompt || (len (strip prompt) <? 3)%nat then
    log WARNING (InvalidPrompt prompt) ;;
    raise (HTTPException 400 (lit "Prompt must be at least 3 characters long"))
  else if (200 <? len prompt)%nat then
    log WARNING (PromptTooLong (len prompt)) ;;
    raise (HTTPException 400 (lit "Prompt must be less than 200 characters"))
  else
    try_except
      (let original_prompt := strip prompt in
       enhanced_prompt <- enhance_prompt original_prompt ;;
       let timestamp := now env in
       log INFO (GenerationStarted timestamp) ;;
       log INFO (OriginalPrompt original_prompt) ;;
       log INFO (EnhancedPrompt enhanced_prompt) ;;
       log INFO CallingModel ;;
       video_bytes <- text_to_video env enhanced_prompt model_name ;;
       match video_bytes with
       | None | Some [] => raise (lit "Model returned empty response")
       | Some video_bytes =>
           log INFO (VideoGenerated (List.length video_bytes)) ;;
           video_base64 <- decode (b64encode video_bytes) ;;
           let response_data := {|
             status := lit "success";
             video_data := lit "data:video/mp4;base64," ++ video_base64;
             enhanced_prompt := enhanced_prompt;
             original_prompt := original_prompt;
             model_used := model_name;
             generation_timestamp := timestamp;
             video_size_bytes := List.length video_bytes;
             enhancement_applied := true
           |} in
           log INFO GenerationCompleted ;;
           ret response_data
       end)
      (fun error_message =>
         log ERROR (GenerationFailed error_message) ;;
         (if contains (lit "rate limit") (lower unicode_lower error_message)
          then log ERROR RateLimitExceeded
          else if contains (lit "quota") (lower unicode_lower error_message)
          then log ERROR QuotaExceeded
          else if contains (lit "unauthorized")
                    (lower unicode_lower error_message)
          then log ERROR AuthenticationFailed
          else ret tt) ;;
         raise (HTTPException 500
                  (lit "Video generation failed: " ++ error_message))).

End Program.

(** ** The priority table, as the specification words it

    An ordered list of (keywords, category) rules read with first match
    wins, and the fallback category when no rule matches. *)

Definition priority_rules : list (list str * category) :=
  [ (portrait_keywords, portrait); (action_keywords, action);
    (nature_keywords, nature); (urban_keywords, urban) ].

Fixpoint first_match (rules : list (list str * category)) (text : str)
  : category :=
  match rules with
  | [] => cinematic
  | (keywords, c) :: rest =>
      if any_in keywords text then c else first_match rest text
  end.

(** A keyword stands alone in a prompt when it is one of the
    white-space-separated words of the lower-cased prompt. *)
Definition standalone_word (keyword text : str) : bool :=
  existsb (PyStr.eqb keyword) (split text).

Definition all_keywords : list str :=
  portrait_keywords ++ action_keywords ++ nature_keywords ++ urban_keywords.

(** A valid request: at least 3 characters after trimming, at most 200
    before. *)
Definition valid_length (prompt : str) : Prop :=
  3 <= len (strip prompt) /\ len prompt <= 200.

(** Text that [str.lower] leaves alone: ASCII with no capital letter. *)
Definition lower_fixed (k : str) : bool :=
  forallb (fun c => (c <? 128)%N && (ascii_lower c =? c)%N) k.

Definition is_ascii (b : byte) : bool := (Byte.to_N b <? 128)%N.

Section Traces.

Variable unicode_lower : str -> N -> str -> str.

(** The output the specification gives: trimmed prompt, the suffix of the
    first matching category, the technical suffix. *)
Definition spec_enhance (user_prompt : str) : str :=
  strip user_prompt ++ lit ", "
  ++ enhancement_database
       (first_match priority_rules (lower unicode_lower user_prompt))
  ++ lit ", " ++ enhancement_database technical.

Definition enhance_trace (user_prompt : str) : list event :=
  [ Log INFO (AppliedEnhancements
                (first_match priority_rules (lower unicode_lower user_prompt)));
    Log INFO (EnhancementComplete user_prompt
                (Z.of_nat (len (spec_enhance user_prompt))
                 - Z.of_nat (len user_prompt))) ].

Variable env : environment.
Variable prompt : str.

(** The log lines of a request up to the provider call. *)
Definition started_trace : list event :=
  enhance_trace (strip prompt)
  ++ [ Log INFO (GenerationStarted (now env));
       Log INFO (OriginalPrompt (strip prompt));
       Log INFO (EnhancedPrompt (spec_enhance (strip prompt)));
       Log INFO CallingModel ].

(** The log lines of the [except] branch. *)
Definition failure_trace (error_message : str) : list event :=
  Log ERROR (GenerationFailed error_message)
  :: (if contains (lit "rate limit") (lower unicode_lower error_message)
      then [Log ERROR RateLimitExceeded]
      else if contains (lit "quota") (lower unicode_lower error_message)
      then [Log ERROR QuotaExceeded]
      else if contains (lit "unauthorized") (lower unicode_lower error_message)
      then [Log ERROR AuthenticationFailed]
      else []).

Definition failure (error_message : str) : http_exception :=
  HTTPException 500 (lit "Video generation failed: " ++ error_message).

End Traces.

(** ** The health-check endpoint *)

(** The values of the dictionary the endpoint returns: strings, booleans
    and lists of strings. *)
Inductive value : Type :=
  | Str (s : str)
  | Bool (b : bool)
  | Items (l : list str).

(** A Python [dict] with string keys, in insertion order. *)
Definition dict : Type := list (str * value).

Fixpoint get (key : str) (d : dict) : option value :=
  match d with
  | [] => None
  | (k, v) :: rest => if PyStr.eqb k key then Some v else get key rest
  end.

(** [health_check]: [isoformat_now] is [datetime.now().isoformat()]; the
    first component is the line given to [logger.info]. *)
Definition health_check (env : environment) (isoformat_now : str)
  : list (level * str) * dict :=
  let health_status :=
    [ (lit "status", Str (lit "healthy"));
      (lit "service", Str (lit "Peppo AI Video Generator"));
      (lit "version", Str (lit "1.0.0"));
      (lit "developer", Str (lit "Kakarla Dilleswara Rao"));
      (lit "contact", Str (lit "dilleswar0050@gmail.com"));
      (lit "timestamp", Str isoformat_now);
      (lit "api_configured", Bool (truthy (HF_TOKEN env)));
      (lit "features",
       Items [ lit "Text-to-Video"; lit "RAG Enhancement";
               lit "Download Support" ]) ] in
  ([(INFO, 128154%N :: lit " Health check performed")], health_status).

(** ** Observations on a run *)

(** The provider calls of a trace, in order: (prompt, model). *)
Fixpoint calls (t : list event) : list (str * str) :=
  match t with
  | [] => []
  | TextToVideo p m :: rest => (p, m) :: calls rest
  | Log _ _ :: rest => calls rest
  end.

(** The levels of the lines logged in a trace, in order. *)
Fixpoint levels (t : list event) : list level :=
  match t with
  | [] => []
  | Log lv _ :: rest => lv :: levels rest
  | TextToVideo _ _ :: rest => levels rest
  end.

Definition level_eqb (a b : level) : bool :=
  match a, b with
  | INFO, INFO | WARNING, WARNING | ERROR, ERROR => true
  | _, _ => false
  end.

(** The diagnostic lines of the [except] branch found in a trace. *)
Fixpoint diagnostics (t : list event) : list log_line :=
  match t with
  | [] => []
  | Log _ RateLimitExceeded :: rest => RateLimitExceeded :: diagnostics rest
  | Log _ QuotaExceeded :: rest => QuotaExceeded :: diagnostics rest
  | Log _ AuthenticationFailed :: rest =>
      AuthenticationFailed :: diagnostics rest
  | _ :: rest => diagnostics rest
  end.

(** No white space at either end. *)
Definition trimmed (s : str) : bool :=
  match s with [] => true | c :: _ => negb (isspace c) end
  && match rev s with [] => true | c :: _ => negb (isspace c) end.

(** The inverse of [b64encode], which the page applies to the data URI:
    four characters give three bytes, [=] marks a short last group. *)
Fixpoint index_of (c : byte) (l : list byte) : option N :=
  match l with
  | [] => None
  | x :: rest =>
      if Byte.eqb x c then Some 0%N else option_map N.succ (index_of c rest)
  end.

Definition byte_at (n : N) (i : N) : option byte :=
  Byte.of_N (N.land (N.shiftr n (8 * i)) 255).

Definition some_bytes (l : list (option byte)) : option bytes :=
  fold_right (fun o acc =>
                match o, acc with
                | Some b, Some bs => Some (b :: bs)
                | _, _ => None
                end) (Some []) l.

Fixpoint b64decode (cs : bytes) : option bytes :=
  match cs with
  | [] => Some []
  | c0 :: c1 :: c2 :: c3 :: rest =>
      match index_of c0 alphabet, index_of c1 alphabet with
      | Some i0, Some i1 =>
          match index_of c2 alphabet, index_of c3 alphabet, rest with
          | Some i2, Some i3, _ =>
              let n := (i0 * 262144 + i1 * 4096 + i2 * 64 + i3)%N in
              match some_bytes [byte_at n 2; byte_at n 1; byte_at n 0],
                    b64decode rest with
              | Some group, Some bs => Some (group ++ bs)
              | _, _ => None
              end
          | Some i2, None, [] =>
              if Byte.eqb c3 pad
              then let n := (i0 * 262144 + i1 * 4096 + i2 * 64)%N in
                   some_bytes [byte_at n 2; byte_at n 1]
              else None
          | None, None, [] =>
              if Byte.eqb c2 pad && Byte.eqb c3 pad
              then let n := (i0 * 262144 + i1 * 4096)%N in
                   some_bytes [byte_at n 2]
              else None
          | _, _, _ => None
          end
      | _, _ => None
      end
  | _ => None
  end.

(** The bytes of a text whose code points are all below 256. *)
Definition text_bytes (s : str) : option bytes :=
  some_bytes (List.map Byte.of_N s).

(** What a reader of the envelope does with [video_data]: check the
    22-character prefix, then decode the base64 text that follows. *)
Definition decode_data_uri (uri : str) : option bytes :=
  if startswith uri (lit "data:video/mp4;base64,")
  then match text_bytes (skipn 22 uri) with
       | Some cs => b64decode cs
       | None => None
       end
  else None.

(** A character of base64 text: one of the alphabet, or the padding sign. *)
Definition b64_character (c : byte) : bool :=
  existsb (Byte.eqb c) (pad :: alphabet).

(** ASCII text in any letter case. *)
Definition all_ascii (s : str) : bool := forallb (fun c => (c <? 128)%N) s.

(** ** Concrete settings used to run the model *)

(** A lower-case mapping that leaves every code point outside ASCII alone. *)
Definition ascii_only : str -> N -> str -> str := fun _ c _ => [c].

Definition no_message : bytes -> str := fun _ => [].

Definition sample_env (token : option str)
  (call : str -> str -> provider_result) : environment :=
  {| HF_TOKEN := token; client := Some call; now := lit "2025-08-20 10:15:00" |}.

Definition sample_token : option str := Some (lit "hf_sample").

Definition gives (r : provider_result) : str -> str -> provider_result :=
  fun _ _ => r.

(** A detail message about the prompt's length. *)
Definition length_related (detail : str) : Prop :=
  detail = lit "Prompt must be at least 3 characters long"
  \/ detail = lit "Prompt must be less than 200 characters".

Definition configuration_detail : str :=
  lit "API token not configured - please contact administrator".

(** ** Running the model on small inputs *)

Example strip_hello :
  strip (lit "  Hello World	 ") = lit "Hello World".
Proof. reflexivity. Qed.

Example lower_hello u :
  lower u (lit "A Romance SCENE") = lit "a romance scene".
Proof. reflexivity. Qed.

Example contains_man :
  contains (lit "man") (lit "a romance scene") = true.
Proof. reflexivity. Qed.

Example split_romance :
  split (lit " a romance  scene ") = [lit "a"; lit "romance"; lit "scene"].
Proof. reflexivity. Qed.

Example b64encode_Man :
  b64encode (list_byte_of_string "Man") = list_byte_of_string "TWFu".
Proof. reflexivity. Qed.

Example b64encode_Ma :
  b64encode (list_byte_of_string "Ma") = list_byte_of_string "TWE=".
Proof. reflexivity. Qed.

Example b64encode_M :
  b64encode (list_byte_of_string "M") = list_byte_of_string "TQ==".
Proof. reflexivity. Qed.

Example b64encode_binary :
  b64encode [xff; xfe; x00; x10]%byte = list_byte_of_string "//4AEA==".
Proof. reflexivity. Qed.

Example decode_utf8_euro :
  decode_utf8 [xe2; x82; xac; x41]%byte = Some [8364; 65]%N.
Proof. reflexivity. Qed.

Example decode_utf8_overlong :
  decode_utf8 [xc0; x80]%byte = None.
Proof. reflexivity. Qed.

(** ** Facts about strings *)

Lemma startswith_spec (k s : str) :
  startswith s k = true <-> exists b, s = k ++ b.
Proof.
  revert s. induction k as [|a k IH]; intros s; simpl.
  - split; [intros _; now exists s | reflexivity].
  - destruct s as [|b s].
    + split; [discriminate | intros [x Hx]; discriminate].
    + rewrite andb_true_iff, N.eqb_eq, IH. split.
      * intros [-> [x ->]]. now exists x.
      * intros [x Hx]. injection Hx as -> ->. split; [reflexivity | now exists x].
Qed.

Lemma contains_unfold (k s : str) :
  contains k s
  = startswith s k || match s with [] => false | _ :: rest => contains k rest end.
Proof. destruct s; reflexivity. Qed.

Lemma contains_spec (k s : str) :
  contains k s = true <-> exists a b, s = a ++ k ++ b.
Proof.
  induction s as [|c s IH]; rewrite contains_unfold, orb_true_iff, startswith_spec.
  - split.
    + intros [[b Hb] | H]; [now exists [], b | discriminate].
    + intros [a [b H]]. left. symmetry in H.
      apply app_eq_nil in H as [-> H]. now exists b.
  - rewrite IH. split.
    + intros [[b Hb] | [a [b Hab]]].
      * now exists [], b.
      * exists (c :: a), b. now rewrite Hab.
    + intros [[|c' a] [b H]].
      * left. now exists b.
      * right. injection H as -> ->. now exists a, b.
Qed.


Section LowerFacts.

Variable unicode_lower : str -> N -> str -> str.

Lemma lower_from_fixed (k before rest : str) :
  lower_fixed k = true ->
  lower_from unicode_lower before (k ++ rest)
  = k ++ lower_from unicode_lower (before ++ k) rest.
Proof.
  revert before. induction k as [|c k IH]; intros before Hk; simpl.
  - now rewrite app_nil_r.
  - simpl in Hk. apply andb_true_iff in Hk as [Hc Hk].
    apply andb_true_iff in Hc as [Hlt Hfix]. apply N.eqb_eq in Hfix.
    unfold lower_char. rewrite Hlt, Hfix. simpl.
    rewrite IH by exact Hk. now rewrite <- app_assoc.
Qed.

Lemma lower_from_occurrence (a before k b : str) :
  lower_fixed k = true ->
  exists x y, lower_from unicode_lower before (a ++ k ++ b) = x ++ k ++ y.
Proof.
  intros Hk. revert before. induction a as [|c a IH]; intros before.
  - simpl. rewrite lower_from_fixed by exact Hk. now exists [], (lower_from unicode_lower (before ++ k) b).
  - simpl. destruct (IH (before ++ [c])) as [x [y Hxy]].
    exists (lower_char unicode_lower before c (a ++ k ++ b) ++ x), y.
    now rewrite Hxy, <- app_assoc.
Qed.

(** A lower-case ASCII keyword found in a prompt is still found after the
    prompt is lower-cased. *)
Lemma contains_lower (k s : str) :
  lower_fixed k = true ->
  contains k s = true -> contains k (lower unicode_lower s) = true.
Proof.
  intros Hk Hs. apply contains_spec in Hs as [a [b ->]].
  apply contains_spec. unfold lower. now apply lower_from_occurrence.
Qed.

End LowerFacts.

Lemma any_in_true (keywords : list str) (text : str) :
  any_in keywords text = true
  <-> exists keyword, In keyword keywords /\ contains keyword text = true.
Proof. unfold any_in. apply existsb_exists. Qed.

Lemma portrait_keywords_fixed (k : str) :
  In k portrait_keywords -> lower_fixed k = true.
Proof.
  intros H. apply (proj1 (forallb_forall lower_fixed portrait_keywords)); [|exact H].
  vm_compute. reflexivity.
Qed.

(** ** Facts about [enhance_prompt] *)

Section EnhanceFacts.

Variable unicode_lower : str -> N -> str -> str.


(** The if/elif chain of the source computes the first match of the
    priority table; the function always returns. *)
Lemma enhance_prompt_run (E : Type) (user_prompt : str) :
  enhance_prompt (E:=E) unicode_lower user_prompt
  = (enhance_trace unicode_lower user_prompt, inr (spec_enhance unicode_lower user_prompt)).
Proof.
  unfold enhance_prompt, enhance_trace, spec_enhance, priority_rules,
    first_match.
  destruct (any_in portrait_keywords _);
    [| destruct (any_in action_keywords _);
       [| destruct (any_in nature_keywords _);
          [| destruct (any_in urban_keywords _)]]];
    cbn [bind log emit ret snd fst app]; rewrite <- !app_assoc; reflexivity.
Qed.

Lemma enhance_prompt_returns (E : Type) (user_prompt : str) :
  returns (enhance_prompt (E:=E) unicode_lower user_prompt)
    (spec_enhance unicode_lower user_prompt).
Proof. unfold returns. now rewrite enhance_prompt_run. Qed.

Lemma first_match_portrait (text : str) :
  any_in portrait_keywords text = true ->
  first_match priority_rules text = portrait.
Proof. intros H. unfold priority_rules, first_match. now rewrite H. Qed.

End EnhanceFacts.

(** ** Facts about base64 text *)


Lemma sextet_ascii (n i : N) : is_ascii (sextet n i) = true.
Proof.
  unfold sextet.
  destruct (nth_in_or_default (N.to_nat (N.land (N.shiftr n (6 * i)) 63))
              alphabet "A"%byte) as [Hin | ->]; [|reflexivity].
  revert Hin. apply (proj1 (forallb_forall is_ascii alphabet)).
  vm_compute. reflexivity.
Qed.

Lemma b64encode_ascii (bs : bytes) : forallb is_ascii (b64encode bs) = true.
Proof.
  assert (H : forall n bs, List.length bs <= n ->
                           forallb is_ascii (b64encode bs) = true).
  { induction n as [|n IH]; intros [|a [|b [|c rest]]] Hlen;
      cbn [b64encode forallb]; rewrite ?sextet_ascii; try reflexivity;
      simpl in Hlen; try lia.
    apply IH. lia. }
  apply (H (List.length bs)). lia.
Qed.

Lemma decode_utf8_ascii (bs : bytes) :
  forallb is_ascii bs = true -> decode_utf8 bs = Some (ascii_text bs).
Proof.
  induction bs as [|b bs IH]; intros H; [reflexivity|].
  cbn [forallb] in H. apply andb_true_iff in H as [Hb Hbs].
  unfold is_ascii in Hb. cbn [decode_utf8]. cbv zeta.
  rewrite Hb, (IH Hbs). reflexivity.
Qed.

(** The base64 text of any byte string decodes, to the same characters. *)
Lemma decode_b64encode (bs : bytes) :
  decode_utf8 (b64encode bs) = Some (ascii_text (b64encode bs)).
Proof. apply decode_utf8_ascii, b64encode_ascii. Qed.

(** ** Facts about [generate_video] *)

Lemma strip_nil : strip [] = [].
Proof. reflexivity. Qed.

Lemma valid_not_short (prompt : str) :
  valid_length prompt ->
  is_empty prompt || (len (strip prompt) <? 3)%nat = false.
Proof.
  intros [Hlo _]. apply orb_false_iff. split.
  - destruct prompt; [rewrite strip_nil in Hlo; simpl in Hlo; lia | reflexivity].
  - apply Nat.ltb_ge. exact Hlo.
Qed.

Lemma valid_not_long (prompt : str) :
  valid_length prompt -> (200 <? len prompt)%nat = false.
Proof. intros [_ Hhi]. apply Nat.ltb_ge. exact Hhi. Qed.

Section EndpointFacts.

Variable unicode_lower : str -> N -> str -> str.
Variable utf8_error_message : bytes -> str.
Variable env : environment.
Variable prompt : str.

Local Abbreviation handle :=
  (generate_video unicode_lower utf8_error_message env prompt).


Lemma run_no_token :
  truthy (HF_TOKEN env) = false ->
  handle
  = ([Log ERROR GenerationWithoutToken],
     inl (HTTPException 500
            (lit "API token not configured - please contact administrator"))).
Proof. intros H. unfold generate_video. rewrite H. reflexivity. Qed.

Lemma run_too_short :
  truthy (HF_TOKEN env) = true ->
  len (strip prompt) < 3 ->
  handle
  = ([Log WARNING (InvalidPrompt prompt)],
     inl (HTTPException 400 (lit "Prompt must be at least 3 characters long"))).
Proof.
  intros Htok Hlen. unfold generate_video. rewrite Htok.
  apply Nat.ltb_lt in Hlen. rewrite Hlen, orb_true_r. reflexivity.
Qed.

Lemma run_too_long :
  truthy (HF_TOKEN env) = true ->
  3 <= len (strip prompt) ->
  200 < len prompt ->
  handle
  = ([Log WARNING (PromptTooLong (len prompt))],
     inl (HTTPException 400 (lit "Prompt must be less than 200 characters"))).
Proof.
  intros Htok Hlo Hhi. unfold generate_video. rewrite Htok.
  assert (Hs : is_empty prompt || (len (strip prompt) <? 3)%nat = false).
  { apply orb_false_iff. split.
    - destruct prompt; [rewrite strip_nil in Hlo; simpl in Hlo; lia | reflexivity].
    - now apply Nat.ltb_ge. }
  apply Nat.ltb_lt in Hhi. rewrite Hs, Hhi. reflexivity.
Qed.

Ltac enter_try Htok Hvalid :=
  unfold generate_video;
  rewrite Htok, (valid_not_short Hvalid), (valid_not_long Hvalid);
  cbn [negb]; rewrite enhance_prompt_run;
  cbn [bind try_except log emit ret raise app].

Ltac finish_failure :=
  unfold failure_trace, failure, started_trace;
  repeat match goal with
         | |- context [if ?c then _ else _] => destruct c
         end;
  cbn [bind try_except log emit ret raise app];
  rewrite <- ?app_assoc; reflexivity.

Lemma run_no_client :
  truthy (HF_TOKEN env) = true ->
  valid_length prompt ->
  client env = None ->
  handle
  = (started_trace unicode_lower env prompt ++ failure_trace unicode_lower (lit "name 'client' is not defined"),
     inl (failure (lit "name 'client' is not defined"))).
Proof.
  intros Htok Hvalid Hclient. enter_try Htok Hvalid.
  unfold text_to_video. rewrite Hclient.
  cbn [bind try_except log emit ret raise app].
  finish_failure.
Qed.

Section WithClient.

Variable call : str -> str -> provider_result.
Hypothesis Htok : truthy (HF_TOKEN env) = true.
Hypothesis Hvalid : valid_length prompt.
Hypothesis Hclient : client env = Some call.

Local Abbreviation request :=
  (TextToVideo (spec_enhance unicode_lower (strip prompt)) model_name).

Local Abbreviation answer :=
  (call (spec_enhance unicode_lower (strip prompt)) model_name).

Ltac enter_call H :=
  enter_try Htok Hvalid; unfold text_to_video; rewrite Hclient;
  cbn [bind try_except log emit ret raise app]; rewrite H;
  cbn [bind try_except log emit ret raise app].

Lemma run_raised (message : str) :
  answer = Raised message ->
  handle
  = (started_trace unicode_lower env prompt ++ [request] ++ failure_trace unicode_lower message,
     inl (failure message)).
Proof. intros H. enter_call H. finish_failure. Qed.

Lemma run_none :
  answer = Returned None ->
  handle
  = (started_trace unicode_lower env prompt ++ [request]
     ++ failure_trace unicode_lower (lit "Model returned empty response"),
     inl (failure (lit "Model returned empty response"))).
Proof. intros H. enter_call H. finish_failure. Qed.

Lemma run_no_bytes :
  answer = Returned (Some []) ->
  handle
  = (started_trace unicode_lower env prompt ++ [request]
     ++ failure_trace unicode_lower (lit "Model returned empty response"),
     inl (failure (lit "Model returned empty response"))).
Proof. intros H. enter_call H. finish_failure. Qed.

Lemma run_success (video_bytes : bytes) :
  answer = Returned (Some video_bytes) ->
  video_bytes <> [] ->
  handle
  = (started_trace unicode_lower env prompt ++ [request]
     ++ [ Log INFO (VideoGenerated (List.length video_bytes));
          Log INFO GenerationCompleted ],
     inr {| status := lit "success";
            video_data :=
              lit "data:video/mp4;base64," ++ ascii_text (b64encode video_bytes);
            enhanced_prompt := spec_enhance unicode_lower (strip prompt);
            original_prompt := strip prompt;
            model_used := model_name;
            generation_timestamp := now env;
            video_size_bytes := List.length video_bytes;
            enhancement_applied := true |}).
Proof.
  intros H Hne. enter_call H.
  destruct video_bytes as [|b bs]; [congruence|].
  unfold decode. rewrite decode_b64encode.
  cbn [bind try_except log emit ret raise app].
  unfold started_trace. rewrite <- ?app_assoc. reflexivity.
Qed.

End WithClient.

End EndpointFacts.


(** ** The prompt enhancer *)

(** C1: the category checks are a first-match-wins chain that appends
    exactly one category suffix, and a prompt in which a portrait keyword
    occurs (as typed, or after lower-casing) gets the trimmed prompt, the
    portrait suffix and the technical suffix, whatever other keywords it
    holds. *)
Theorem C1_portrait_wins (E : Type) (unicode_lower : str -> N -> str -> str)
  (prompt : str) :
  returns (enhance_prompt (E:=E) unicode_lower prompt)
    (strip prompt ++ lit ", "
     ++ enhancement_database
          (first_match priority_rules (lower unicode_lower prompt))
     ++ lit ", " ++ enhancement_database technical)
  /\ ((exists keyword,
          In keyword portrait_keywords
          /\ (contains keyword prompt = true
              \/ contains keyword (lower unicode_lower prompt) = true)) ->
      returns (enhance_prompt (E:=E) unicode_lower prompt)
        (strip prompt ++ lit ", " ++ enhancement_database portrait
         ++ lit ", " ++ enhancement_database technical)).
Proof.
  split; [apply enhance_prompt_returns|].
  intros [keyword [Hin Hocc]].
  assert (Hlow : contains keyword (lower unicode_lower prompt) = true).
  { destruct Hocc as [Hraw | Hlow]; [|exact Hlow].
    apply contains_lower; [now apply portrait_keywords_fixed | exact Hraw]. }
  assert (Hany : any_in portrait_keywords (lower unicode_lower prompt) = true).
  { apply any_in_true. now exists keyword. }
  pose proof (enhance_prompt_returns unicode_lower E prompt) as Hrun.
  unfold spec_enhance in Hrun.
  now rewrite (first_match_portrait _ Hany) in Hrun.
Qed.

Lemma C1_portrait_wins_witness :
  returns (enhance_prompt (E:=unit) ascii_only
             (lit " A Woman running fast through a forest in the city "))
    (lit "A Woman running fast through a forest in the city, detailed facial features, realistic rendering, good lighting, clear focus, 5 seconds duration, HD quality, smooth transitions, professional grade").
Proof.
  apply (proj2 (C1_portrait_wins unit ascii_only
                  (lit " A Woman running fast through a forest in the city "))).
  exists (lit "woman"). split.
  - vm_compute. tauto.
  - right. vm_compute. reflexivity.
Defined.

(** C4: for every input the function returns, and the trimmed prompt, in
    its original casing, is a prefix of the output. *)
Theorem C4_prompt_is_prefix (E : Type) (unicode_lower : str -> N -> str -> str)
  (prompt : str) :
  exists enhanced,
    returns (enhance_prompt (E:=E) unicode_lower prompt) enhanced
    /\ startswith enhanced (strip prompt) = true.
Proof.
  exists (spec_enhance unicode_lower prompt). split.
  - apply enhance_prompt_returns.
  - apply startswith_spec. unfold spec_enhance. eexists. reflexivity.
Qed.

Example casing_preserved (E : Type) u :
  returns (enhance_prompt (E:=E) u (lit "  A PERSON at Dusk "))
    (lit "A PERSON at Dusk, detailed facial features, realistic rendering, good lighting, clear focus, 5 seconds duration, HD quality, smooth transitions, professional grade").
Proof. vm_compute. reflexivity. Qed.

(** C5: "a spaceship in orbit" holds no category keyword and gets the
    cinematic suffix and then the technical suffix. *)
Theorem C5_spaceship (E : Type) (unicode_lower : str -> N -> str -> str) :
  returns (enhance_prompt (E:=E) unicode_lower (lit "a spaceship in orbit"))
    (lit "a spaceship in orbit, cinematic lighting, professional cinematography, high quality, smooth motion, 5 seconds duration, HD quality, smooth transitions, professional grade").
Proof. vm_compute. reflexivity. Qed.

(** C10: keywords are matched as substrings of the lower-cased prompt: in
    "a romance scene" no keyword of any category is a word of the prompt,
    yet "man" occurs inside "romance" and the portrait suffix is appended. *)
Theorem C10_substring_match (E : Type) (unicode_lower : str -> N -> str -> str) :
  exists prompt,
    prompt = lit "a romance scene"
    /\ forallb (fun keyword =>
                  negb (standalone_word keyword (lower unicode_lower prompt)))
         all_keywords = true
    /\ contains (lit "man") (lower unicode_lower prompt) = true
    /\ returns (enhance_prompt (E:=E) unicode_lower prompt)
         (prompt ++ lit ", " ++ enhancement_database portrait
          ++ lit ", " ++ enhancement_database technical).
Proof.
  exists (lit "a romance scene").
  repeat split; vm_compute; reflexivity.
Qed.

(** ** The generate-video endpoint *)

(** Once the validations pass, a request ends in a success envelope or in
    the HTTP 500 of the [except] branch. *)
Lemma valid_request_outcome (unicode_lower : str -> N -> str -> str)
  (utf8_error_message : bytes -> str) (env : environment) (prompt : str) :
  truthy (HF_TOKEN env) = true ->
  valid_length prompt ->
  (exists r, returns (generate_video unicode_lower utf8_error_message env prompt) r)
  \/ (exists error_message,
         raises (generate_video unicode_lower utf8_error_message env prompt)
           (failure error_message)).
Proof.
  intros Htok Hvalid. unfold returns, raises.
  destruct (client env) as [call|] eqn:Hclient.
  - destruct (call (spec_enhance unicode_lower (strip prompt)) model_name)
      as [[[|b bs]|]|message] eqn:Hcall.
    + right. eexists. erewrite run_no_bytes by eassumption. reflexivity.
    + left. eexists. erewrite run_success by (eassumption || discriminate).
      reflexivity.
    + right. eexists. erewrite run_none by eassumption. reflexivity.
    + right. eexists. erewrite run_raised by eassumption. reflexivity.
  - right. eexists. erewrite run_no_client by eassumption. reflexivity.
Qed.

Lemma enhanced_is_spec (unicode_lower : str -> N -> str -> str)
  (prompt enhanced : str) :
  returns (enhance_prompt (E:=str) unicode_lower prompt) enhanced ->
  enhanced = spec_enhance unicode_lower prompt.
Proof.
  unfold returns. rewrite enhance_prompt_run. cbn [snd]. congruence.
Qed.

(** C2, as the code has it: the credential is checked first, so without a
    credential every request gets HTTP 500; with one, a trimmed prompt
    shorter than 3 characters gets HTTP 400, and otherwise a raw prompt
    longer than 200 characters gets HTTP 400. *)
Theorem C2_validation_order (unicode_lower : str -> N -> str -> str)
  (utf8_error_message : bytes -> str) (env : environment) (prompt : str) :
  (truthy (HF_TOKEN env) = false ->
   raises (generate_video unicode_lower utf8_error_message env prompt)
     (HTTPException 500 configuration_detail))
  /\ (truthy (HF_TOKEN env) = true ->
      len (strip prompt) < 3 ->
      raises (generate_video unicode_lower utf8_error_message env prompt)
        (HTTPException 400 (lit "Prompt must be at least 3 characters long")))
  /\ (truthy (HF_TOKEN env) = true ->
      3 <= len (strip prompt) ->
      200 < len prompt ->
      raises (generate_video unicode_lower utf8_error_message env prompt)
        (HTTPException 400 (lit "Prompt must be less than 200 characters"))).
Proof.
  unfold raises. repeat split; intros.
  - now rewrite run_no_token.
  - now rewrite run_too_short.
  - now rewrite run_too_long.
Qed.

Lemma C2_validation_order_witness :
  raises (generate_video ascii_only no_message
            (sample_env None (gives (Returned None))) (lit "hi"))
    (HTTPException 500 configuration_detail)
  /\ raises (generate_video ascii_only no_message
               (sample_env sample_token (gives (Returned None)))
               (repeat 32%N 201))
       (HTTPException 400 (lit "Prompt must be at least 3 characters long"))
  /\ raises (generate_video ascii_only no_message
               (sample_env sample_token (gives (Returned None)))
               (repeat 97%N 201))
       (HTTPException 400 (lit "Prompt must be less than 200 characters")).
Proof.
  split; [|split].
  - apply (proj1 (C2_validation_order ascii_only no_message
                    (sample_env None (gives (Returned None))) (lit "hi"))).
    reflexivity.
  - apply (proj1 (proj2 (C2_validation_order ascii_only no_message
                    (sample_env sample_token (gives (Returned None)))
                    (repeat 32%N 201)))).
    + reflexivity.
    + vm_compute. lia.
  - apply (proj2 (proj2 (C2_validation_order ascii_only no_message
                    (sample_env sample_token (gives (Returned None)))
                    (repeat 97%N 201)))).
    + reflexivity.
    + vm_compute. lia.
    + vm_compute. lia.
Defined.

(** C2, as the specification states it, fails: with no credential
    configured the two-character prompt "hi" gets HTTP 500, not HTTP 400. *)
Lemma C2_length_check_not_first :
  truthy (HF_TOKEN (sample_env None (gives (Returned None)))) = false
  /\ len (strip (lit "hi")) < 3
  /\ raises (generate_video ascii_only no_message
               (sample_env None (gives (Returned None))) (lit "hi"))
       (HTTPException 500 configuration_detail)
  /\ ~ (exists detail,
           raises (generate_video ascii_only no_message
                     (sample_env None (gives (Returned None))) (lit "hi"))
             (HTTPException 400 detail)).
Proof.
  split; [reflexivity|]. split; [vm_compute; lia|]. split; [reflexivity|].
  intros [detail H]. vm_compute in H. discriminate H.
Qed.

(** C3: with a credential configured, a request is answered with HTTP 400
    exactly when its trimmed prompt has fewer than 3 characters or its raw
    prompt more than 200, and the detail is then one of the two length
    messages; "hi" and every prompt of 201 characters are rejected so. *)
Theorem C3_length_rejection (unicode_lower : str -> N -> str -> str)
  (utf8_error_message : bytes -> str) (env : environment) :
  truthy (HF_TOKEN env) = true ->
  (forall prompt detail,
      raises (generate_video unicode_lower utf8_error_message env prompt)
        (HTTPException 400 detail)
      <-> ((len (strip prompt) < 3 \/ 200 < len prompt)
           /\ detail = (if (len (strip prompt) <? 3)%nat
                        then lit "Prompt must be at least 3 characters long"
                        else lit "Prompt must be less than 200 characters")))
  /\ (exists detail,
         length_related detail
         /\ raises (generate_video unicode_lower utf8_error_message env (lit "hi"))
              (HTTPException 400 detail))
  /\ (forall prompt,
         len prompt = 201 ->
         exists detail,
           length_related detail
           /\ raises (generate_video unicode_lower utf8_error_message env prompt)
                (HTTPException 400 detail)).
Proof.
  intros Htok.
  assert (Hrej : forall prompt,
             len (strip prompt) < 3 \/ 200 < len prompt ->
             raises (generate_video unicode_lower utf8_error_message env prompt)
               (HTTPException 400
                  (if (len (strip prompt) <? 3)%nat
                   then lit "Prompt must be at least 3 characters long"
                   else lit "Prompt must be less than 200 characters"))).
  { intros prompt Hbad. unfold raises.
    destruct (Nat.ltb_spec (len (strip prompt)) 3) as [Hs | Hs].
    - now rewrite run_too_short.
    - rewrite run_too_long; [reflexivity | assumption | assumption | lia]. }
  split; [|split].
  - intros prompt detail. split.
    + intros Hr.
      assert (Hbad : len (strip prompt) < 3 \/ 200 < len prompt).
      { destruct (Nat.ltb_spec (len (strip prompt)) 3) as [Hs | Hs];
          [now left|].
        destruct (Nat.ltb_spec 200 (len prompt)) as [Hl | Hl]; [now right|].
        exfalso.
        destruct (@valid_request_outcome unicode_lower utf8_error_message
                    env prompt Htok (conj Hs Hl)) as [[r Hok] | [msg Hf]];
          unfold returns, raises, failure in *; congruence. }
      split; [exact Hbad|].
      pose proof (Hrej prompt Hbad) as Hr'. unfold raises in *. congruence.
    + intros [Hbad ->]. now apply Hrej.
  - eexists. split; [|apply (Hrej (lit "hi")); left; vm_compute; lia].
    left. reflexivity.
  - intros prompt Hlen. eexists. split; [|apply (Hrej prompt); right; lia].
    unfold length_related. destruct (len (strip prompt) <? 3)%nat; auto.
Qed.

Lemma C3_length_rejection_witness :
  raises (generate_video ascii_only no_message
            (sample_env sample_token (gives (Returned None))) (lit " hi "))
    (HTTPException 400 (lit "Prompt must be at least 3 characters long")).
Proof.
  apply (proj1 (@C3_length_rejection ascii_only no_message
                  (sample_env sample_token (gives (Returned None)))
                  eq_refl)).
  split; [left; vm_compute; lia | reflexivity].
Defined.

(** C6: a prompt of valid length sent while no credential is configured
    gets HTTP 500 with the configuration detail, and the provider's
    text-to-video operation is not called. *)
Theorem C6_no_credential (unicode_lower : str -> N -> str -> str)
  (utf8_error_message : bytes -> str) (env : environment) (prompt : str) :
  truthy (HF_TOKEN env) = false ->
  valid_length prompt ->
  raises (generate_video unicode_lower utf8_error_message env prompt)
    (HTTPException 500 configuration_detail)
  /\ contains (lit "not configured") configuration_detail = true
  /\ forall enhanced model,
       ~ In (TextToVideo enhanced model)
            (trace (generate_video unicode_lower utf8_error_message env prompt)).
Proof.
  intros Htok _. unfold raises, trace. rewrite run_no_token by exact Htok.
  split; [reflexivity|]. split; [vm_compute; reflexivity|].
  intros enhanced model [H | []]. discriminate H.
Qed.

Lemma C6_no_credential_witness :
  raises (generate_video ascii_only no_message
            (sample_env (Some []) (gives (Returned (Some [x00%byte]))))
            (lit "a cat on a sofa"))
    (HTTPException 500 configuration_detail).
Proof.
  apply (@C6_no_credential ascii_only no_message
           (sample_env (Some []) (gives (Returned (Some [x00%byte]))))
           (lit "a cat on a sofa")).
  - reflexivity.
  - split; vm_compute; lia.
Defined.

(** C7: when the provider returns nothing ([None] or no bytes) for a valid
    prompt, the answer is HTTP 500 whose detail holds "empty response", and
    no success envelope is returned. *)
Theorem C7_empty_response (unicode_lower : str -> N -> str -> str)
  (utf8_error_message : bytes -> str) (env : environment) (prompt : str)
  (call : str -> str -> provider_result) (enhanced : str) :
  truthy (HF_TOKEN env) = true ->
  valid_length prompt ->
  client env = Some call ->
  returns (enhance_prompt (E:=str) unicode_lower (strip prompt)) enhanced ->
  call enhanced model_name = Returned None
  \/ call enhanced model_name = Returned (Some []) ->
  raises (generate_video unicode_lower utf8_error_message env prompt)
    (HTTPException 500
       (lit "Video generation failed: Model returned empty response"))
  /\ contains (lit "empty response")
       (lit "Video generation failed: Model returned empty response") = true
  /\ forall r,
       ~ returns (generate_video unicode_lower utf8_error_message env prompt) r.
Proof.
  intros Htok Hvalid Hclient Henh Hcall.
  apply enhanced_is_spec in Henh. subst enhanced.
  assert (Hrun : raises (generate_video unicode_lower utf8_error_message env prompt)
                   (failure (lit "Model returned empty response"))).
  { unfold raises. destruct Hcall as [Hcall | Hcall].
    - now erewrite run_none by eassumption.
    - now erewrite run_no_bytes by eassumption. }
  split; [exact Hrun|]. split; [vm_compute; reflexivity|].
  intros r Hr. unfold returns, raises in *. congruence.
Qed.

Lemma C7_empty_response_witness :
  raises (generate_video ascii_only no_message
            (sample_env sample_token (gives (Returned (Some []))))
            (lit "a cat on a sofa"))
    (HTTPException 500
       (lit "Video generation failed: Model returned empty response")).
Proof.
  apply (@C7_empty_response ascii_only no_message
           (sample_env sample_token (gives (Returned (Some []))))
           (lit "a cat on a sofa") (gives (Returned (Some [])))
           (spec_enhance ascii_only (strip (lit "a cat on a sofa")))).
  - reflexivity.
  - split; vm_compute; lia.
  - reflexivity.
  - apply enhance_prompt_returns.
  - right. reflexivity.
Defined.

(** C8: on success the envelope has status "success", the data URI of the
    base64 text of the provider's bytes, the trimmed prompt, the enhancement
    of the trimmed prompt, the model name and the number of bytes. *)
Theorem C8_success_envelope (unicode_lower : str -> N -> str -> str)
  (utf8_error_message : bytes -> str) (env : environment) (prompt : str)
  (call : str -> str -> provider_result) (enhanced : str)
  (video_bytes : bytes) :
  truthy (HF_TOKEN env) = true ->
  valid_length prompt ->
  client env = Some call ->
  returns (enhance_prompt (E:=str) unicode_lower (strip prompt)) enhanced ->
  call enhanced model_name = Returned (Some video_bytes) ->
  video_bytes <> [] ->
  returns (generate_video unicode_lower utf8_error_message env prompt)
    {| status := lit "success";
       video_data :=
         lit "data:video/mp4;base64," ++ ascii_text (b64encode video_bytes);
       enhanced_prompt := enhanced;
       original_prompt := strip prompt;
       model_used := lit "Wan-AI/Wan2.2-TI2V-5B";
       generation_timestamp := now env;
       video_size_bytes := List.length video_bytes;
       enhancement_applied := true |}.
Proof.
  intros Htok Hvalid Hclient Henh Hcall Hne.
  apply enhanced_is_spec in Henh. subst enhanced.
  unfold returns. erewrite run_success by eassumption. reflexivity.
Qed.

Lemma C8_success_envelope_witness :
  returns (generate_video ascii_only no_message
             (sample_env sample_token
                (gives (Returned (Some (list_byte_of_string "Man!")))))
             (lit "  A cat on a sofa "))
    {| status := lit "success";
       video_data := lit "data:video/mp4;base64,TWFuIQ==";
       enhanced_prompt :=
         lit "A cat on a sofa, cinematic lighting, professional cinematography, high quality, smooth motion, 5 seconds duration, HD quality, smooth transitions, professional grade";
       original_prompt := lit "A cat on a sofa";
       model_used := lit "Wan-AI/Wan2.2-TI2V-5B";
       generation_timestamp := lit "2025-08-20 10:15:00";
       video_size_bytes := 4;
       enhancement_applied := true |}.
Proof.
  apply (@C8_success_envelope ascii_only no_message
           (sample_env sample_token
              (gives (Returned (Some (list_byte_of_string "Man!")))))
           (lit "  A cat on a sofa ")
           (gives (Returned (Some (list_byte_of_string "Man!"))))
           (lit "A cat on a sofa, cinematic lighting, professional cinematography, high quality, smooth motion, 5 seconds duration, HD quality, smooth transitions, professional grade")
           (list_byte_of_string "Man!")).
  - reflexivity.
  - split; vm_compute; lia.
  - reflexivity.
  - vm_compute. reflexivity.
  - reflexivity.
  - discriminate.
Defined.

(** C9: whatever message the provider's exception carries, the answer is
    HTTP 500 with detail "Video generation failed: " and that message; the
    words "rate limit", "quota" and "unauthorized" change nothing in it,
    only which diagnostic line is logged. *)
Theorem C9_provider_exception (unicode_lower : str -> N -> str -> str)
  (utf8_error_message : bytes -> str) (env : environment) (prompt : str)
  (call : str -> str -> provider_result) (enhanced message : str) :
  truthy (HF_TOKEN env) = true ->
  valid_length prompt ->
  client env = Some call ->
  returns (enhance_prompt (E:=str) unicode_lower (strip prompt)) enhanced ->
  call enhanced model_name = Raised message ->
  raises (generate_video unicode_lower utf8_error_message env prompt)
    (HTTPException 500 (lit "Video generation failed: " ++ message))
  /\ (In (Log ERROR RateLimitExceeded)
         (trace (generate_video unicode_lower utf8_error_message env prompt))
      <-> contains (lit "rate limit") (lower unicode_lower message) = true).
Proof.
  intros Htok Hvalid Hclient Henh Hcall.
  apply enhanced_is_spec in Henh. subst enhanced.
  unfold raises, trace. erewrite run_raised by eassumption.
  split; [reflexivity|]. cbn [fst].
  unfold started_trace, enhance_trace, failure_trace.
  rewrite !in_app_iff. cbn [In].
  destruct (contains (lit "rate limit") (lower unicode_lower message));
    [| destruct (contains (lit "quota") (lower unicode_lower message));
       [| destruct (contains (lit "unauthorized")
                      (lower unicode_lower message))]];
    cbn [In]; split; intros H; try reflexivity; try tauto;
    repeat match type of H with
           | _ \/ _ => destruct H as [H | H]
           end;
    solve [discriminate H | contradiction H].
Qed.

Lemma C9_provider_exception_witness :
  raises (generate_video ascii_only no_message
            (sample_env sample_token
               (gives (Raised (lit "429 Rate Limit reached"))))
            (lit "a cat on a sofa"))
    (HTTPException 500 (lit "Video generation failed: 429 Rate Limit reached"))
  /\ raises (generate_video ascii_only no_message
               (sample_env sample_token (gives (Raised (lit "timed out"))))
               (lit "a cat on a sofa"))
       (HTTPException 500 (lit "Video generation failed: timed out")).
Proof.
  split.
  - refine (proj1 (@C9_provider_exception ascii_only no_message
             (sample_env sample_token
                (gives (Raised (lit "429 Rate Limit reached"))))
             (lit "a cat on a sofa")
             (gives (Raised (lit "429 Rate Limit reached")))
             (spec_enhance ascii_only (strip (lit "a cat on a sofa")))
             (lit "429 Rate Limit reached") _ _ _ _ _)).
    + reflexivity.
    + split; vm_compute; lia.
    + reflexivity.
    + apply enhance_prompt_returns.
    + reflexivity.
  - refine (proj1 (@C9_provider_exception ascii_only no_message
             (sample_env sample_token (gives (Raised (lit "timed out"))))
             (lit "a cat on a sofa")
             (gives (Raised (lit "timed out")))
             (spec_enhance ascii_only (strip (lit "a cat on a sofa")))
             (lit "timed out") _ _ _ _ _)).
    + reflexivity.
    + split; vm_compute; lia.
    + reflexivity.
    + apply enhance_prompt_returns.
    + reflexivity.
Defined.

(** ** More facts about [strip] *)

Lemma lstrip_length (s : str) : len (lstrip s) <= len s.
Proof.
  unfold len. induction s as [|c s IH]; cbn [lstrip List.length]; [lia|].
  destruct (isspace c); cbn [List.length]; lia.
Qed.

Lemma strip_length (s : str) : len (strip s) <= len s.
Proof.
  unfold strip, rstrip.
  pose proof (lstrip_length s) as H1.
  pose proof (lstrip_length (rev (lstrip s))) as H2.
  unfold len in *. rewrite length_rev in *. lia.
Qed.

Lemma lstrip_shape (s : str) :
  lstrip s = [] \/ exists c t, lstrip s = c :: t /\ isspace c = false.
Proof.
  induction s as [|c s IH]; cbn [lstrip]; [now left|].
  destruct (isspace c) eqn:Hc; [exact IH|]. right. now exists c, s.
Qed.

Lemma lstrip_spaces (a s : str) :
  forallb isspace a = true -> lstrip (a ++ s) = lstrip s.
Proof.
  induction a as [|c a IH]; cbn [lstrip app forallb]; [reflexivity|].
  intros H. apply andb_true_iff in H as [Hc Ha]. now rewrite Hc, IH.
Qed.

Lemma lstrip_app_nonspace (a b : str) (c : N) :
  isspace c = false -> lstrip (a ++ c :: b) = lstrip a ++ c :: b.
Proof.
  intros Hc. induction a as [|x a IH]; cbn [lstrip app].
  - now rewrite Hc.
  - destruct (isspace x); [exact IH | reflexivity].
Qed.

Lemma rstrip_cons (c : N) (t : str) :
  isspace c = false -> rstrip (c :: t) = c :: rstrip t.
Proof.
  intros Hc. unfold rstrip. cbn [rev].
  rewrite lstrip_app_nonspace by exact Hc.
  now rewrite rev_app_distr.
Qed.

Lemma rstrip_spaces (s b : str) :
  forallb isspace b = true -> rstrip (s ++ b) = rstrip s.
Proof.
  intros Hb. unfold rstrip. rewrite rev_app_distr, lstrip_spaces; [reflexivity|].
  rewrite forallb_forall in *. intros x Hx. apply Hb. now apply in_rev.
Qed.

Lemma rstrip_rstrip (s : str) : rstrip (rstrip s) = rstrip s.
Proof.
  unfold rstrip. rewrite rev_involutive. f_equal.
  destruct (lstrip_shape (rev s)) as [-> | [c [t [-> Hc]]]]; [reflexivity|].
  cbn [lstrip]. now rewrite Hc.
Qed.

Lemma lstrip_rstrip_lstrip (s : str) :
  lstrip (rstrip (lstrip s)) = rstrip (lstrip s).
Proof.
  destruct (lstrip_shape s) as [-> | [c [t [-> Hc]]]]; [reflexivity|].
  rewrite rstrip_cons by exact Hc. cbn [lstrip]. now rewrite Hc.
Qed.

(** Trimming twice is trimming once. *)
Lemma strip_strip (s : str) : strip (strip s) = strip s.
Proof.
  unfold strip at 1. unfold strip at 1 2.
  now rewrite lstrip_rstrip_lstrip, rstrip_rstrip.
Qed.

Lemma strip_trimmed (s : str) : trimmed (strip s) = true.
Proof.
  unfold trimmed. apply andb_true_iff. split.
  - unfold strip.
    destruct (lstrip_shape s) as [-> | [c [t [-> Hc]]]]; [reflexivity|].
    rewrite rstrip_cons by exact Hc. cbn [negb]. now rewrite Hc.
  - unfold strip, rstrip. rewrite rev_involutive.
    destruct (lstrip_shape (rev (lstrip s))) as [-> | [c [t [-> Hc]]]];
      [reflexivity | now rewrite Hc].
Qed.

(** White space around a prompt does not change what trimming gives. *)
Lemma strip_padding (a s b : str) :
  forallb isspace a = true -> forallb isspace b = true ->
  strip (a ++ s ++ b) = strip s.
Proof.
  intros Ha Hb. unfold strip. rewrite lstrip_spaces by exact Ha.
  induction s as [|c s IH]; cbn [lstrip app].
  - rewrite <- (app_nil_r b), lstrip_spaces by exact Hb. reflexivity.
  - destruct (isspace c); [exact IH|].
    now rewrite app_comm_cons, rstrip_spaces.
Qed.

(** ** Every run of [generate_video] *)

Lemma calls_app (t t' : list event) : calls (t ++ t') = calls t ++ calls t'.
Proof.
  induction t as [|[lv line|p m] t IH]; cbn [calls app]; [reflexivity|exact IH|].
  now rewrite IH.
Qed.

Lemma levels_app (t t' : list event) : levels (t ++ t') = levels t ++ levels t'.
Proof.
  induction t as [|[lv line|p m] t IH]; cbn [levels app]; [reflexivity| |exact IH].
  now rewrite IH.
Qed.

Lemma diagnostics_app (t t' : list event) :
  diagnostics (t ++ t') = diagnostics t ++ diagnostics t'.
Proof.
  induction t as [|[lv []|p m] t IH]; cbn [diagnostics app];
    try exact IH; try reflexivity; now rewrite IH.
Qed.

Section Runs.

Variable unicode_lower : str -> N -> str -> str.
Variable utf8_error_message : bytes -> str.
Variable env : environment.
Variable prompt : str.

Local Abbreviation run :=
  (generate_video unicode_lower utf8_error_message env prompt).

Local Abbreviation enhanced := (spec_enhance unicode_lower (strip prompt)).

Local Abbreviation started := (started_trace unicode_lower env prompt).

Lemma calls_started : calls started = [].
Proof. reflexivity. Qed.

Lemma levels_started : levels started = [INFO; INFO; INFO; INFO; INFO; INFO].
Proof. reflexivity. Qed.

Lemma diagnostics_started : diagnostics started = [].
Proof. reflexivity. Qed.

Lemma calls_failure (error_message : str) :
  calls (failure_trace unicode_lower error_message) = [].
Proof.
  unfold failure_trace.
  repeat match goal with
         | |- context [if ?c then _ else _] => destruct c
         end; reflexivity.
Qed.

Lemma levels_failure (error_message : str) :
  exists more,
    levels (failure_trace unicode_lower error_message) = ERROR :: more
    /\ forall lv, In lv more -> lv = ERROR.
Proof.
  unfold failure_trace.
  repeat match goal with
         | |- context [if ?c then _ else _] => destruct c
         end; cbn [levels]; eexists; (split; [reflexivity|]);
    cbn [In]; intros lv H; tauto || (destruct H as [H | []]; now symmetry).
Qed.

(** The six ways a request can go, each with its whole run. *)
Lemma generate_video_cases :
  (truthy (HF_TOKEN env) = false
   /\ run = ([Log ERROR GenerationWithoutToken],
             inl (HTTPException 500 configuration_detail)))
  \/ (truthy (HF_TOKEN env) = true /\ len (strip prompt) < 3
      /\ run = ([Log WARNING (InvalidPrompt prompt)],
                inl (HTTPException 400
                       (lit "Prompt must be at least 3 characters long"))))
  \/ (truthy (HF_TOKEN env) = true /\ 3 <= len (strip prompt)
      /\ 200 < len prompt
      /\ run = ([Log WARNING (PromptTooLong (len prompt))],
                inl (HTTPException 400
                       (lit "Prompt must be less than 200 characters"))))
  \/ (truthy (HF_TOKEN env) = true /\ valid_length prompt
      /\ client env = None
      /\ run = (started
                ++ failure_trace unicode_lower
                     (lit "name 'client' is not defined"),
                inl (failure (lit "name 'client' is not defined"))))
  \/ (truthy (HF_TOKEN env) = true /\ valid_length prompt
      /\ exists call error_message,
          client env = Some call
          /\ (call enhanced model_name = Raised error_message
              \/ (error_message = lit "Model returned empty response"
                  /\ (call enhanced model_name = Returned None
                      \/ call enhanced model_name = Returned (Some []))))
          /\ run = (started ++ [TextToVideo enhanced model_name]
                    ++ failure_trace unicode_lower error_message,
                    inl (failure error_message)))
  \/ (truthy (HF_TOKEN env) = true /\ valid_length prompt
      /\ exists call video_bytes,
          client env = Some call
          /\ call enhanced model_name = Returned (Some video_bytes)
          /\ video_bytes <> []
          /\ run = (started ++ [TextToVideo enhanced model_name]
                    ++ [ Log INFO (VideoGenerated (List.length video_bytes));
                         Log INFO GenerationCompleted ],
                    inr {| status := lit "success";
                           video_data :=
                             lit "data:video/mp4;base64,"
                             ++ ascii_text (b64encode video_bytes);
                           enhanced_prompt := enhanced;
                           original_prompt := strip prompt;
                           model_used := model_name;
                           generation_timestamp := now env;
                           video_size_bytes := List.length video_bytes;
                           enhancement_applied := true |})).
Proof.
  destruct (truthy (HF_TOKEN env)) eqn:Htok;
    [| left; split; [reflexivity | now apply run_no_token]].
  right.
  destruct (Nat.ltb_spec (len (strip prompt)) 3) as [Hs | Hs];
    [left; repeat split; [exact Hs | now apply run_too_short]|].
  right.
  destruct (Nat.ltb_spec 200 (len prompt)) as [Hl | Hl];
    [left; repeat split; [exact Hs | exact Hl | now apply run_too_long]|].
  right.
  assert (Hvalid : valid_length prompt) by (split; assumption).
  destruct (client env) as [call|] eqn:Hclient;
    [| left; repeat split; try assumption; now apply run_no_client].
  right.
  destruct (call enhanced model_name) as [[[|b bs]|]|message] eqn:Hcall.
  - left. split; [reflexivity|]. split; [exact Hvalid|].
    exists call, (lit "Model returned empty response").
    split; [reflexivity|]. split; [right; split; [reflexivity | now right]|].
    eapply run_no_bytes; (eassumption || discriminate).
  - right. split; [reflexivity|]. split; [exact Hvalid|].
    exists call, (b :: bs). split; [reflexivity|]. split; [exact Hcall|].
    split; [discriminate|]. eapply run_success; (eassumption || discriminate).
  - left. split; [reflexivity|]. split; [exact Hvalid|].
    exists call, (lit "Model returned empty response").
    split; [reflexivity|]. split; [right; split; [reflexivity | now left]|].
    eapply run_none; (eassumption || discriminate).
  - left. split; [reflexivity|]. split; [exact Hvalid|].
    exists call, message. split; [reflexivity|]. split; [now left|].
    eapply run_raised; (eassumption || discriminate).
Qed.

End Runs.

Ltac split_ifs :=
  repeat match goal with
         | |- context [if ?c then _ else _] => destruct c
         end.

Ltac open_run Hrun :=
  unfold trace, raises, returns; rewrite Hrun; cbn [fst snd];
  unfold started_trace, enhance_trace, failure_trace, failure; split_ifs;
  cbn [levels calls diagnostics app].

(** X1: the provider is called exactly once, with the enhanced text of the
    trimmed prompt and the fixed model name, when a credential is
    configured, the prompt passes both length checks and the client exists;
    in every other case it is not called at all. *)
Theorem provider_called_once (unicode_lower : str -> N -> str -> str)
  (utf8_error_message : bytes -> str) (env : environment)
  (prompt enhanced : str) :
  returns (enhance_prompt (E:=str) unicode_lower (strip prompt)) enhanced ->
  (truthy (HF_TOKEN env) = true /\ valid_length prompt /\ client env <> None ->
   calls (trace (generate_video unicode_lower utf8_error_message env prompt))
   = [(enhanced, lit "Wan-AI/Wan2.2-TI2V-5B")])
  /\ (~ (truthy (HF_TOKEN env) = true /\ valid_length prompt
         /\ client env <> None) ->
      calls (trace (generate_video unicode_lower utf8_error_message env prompt))
      = []).
Proof.
  intros Henh. apply enhanced_is_spec in Henh. subst enhanced.
  destruct (generate_video_cases unicode_lower utf8_error_message env prompt)
    as [[Htok Hrun] | [[Htok [Hs Hrun]] | [[Htok [Hs [Hl Hrun]]]
       | [[Htok [Hv [Hc Hrun]]] | [[Htok [Hv [call [msg [Hc [_ Hrun]]]]]]
       | [Htok [Hv [call [vb [Hc [_ [_ Hrun]]]]]]]]]]]];
    (split; [intros [Htok' [[Hlo Hhi] Hcl]] | intros Hnot]);
    try congruence; try lia;
    try (exfalso; apply Hnot; split; [assumption | split; [assumption | congruence]]);
    try (destruct Hv; lia); open_run Hrun; reflexivity.
Qed.

Lemma provider_called_once_witness :
  calls (trace (generate_video ascii_only no_message
                  (sample_env sample_token (gives (Raised (lit "timed out"))))
                  (lit "  a cat on a sofa ")))
  = [(lit "a cat on a sofa, cinematic lighting, professional cinematography, high quality, smooth motion, 5 seconds duration, HD quality, smooth transitions, professional grade",
      lit "Wan-AI/Wan2.2-TI2V-5B")]
  /\ calls (trace (generate_video ascii_only no_message
                     (sample_env sample_token (gives (Raised (lit "timed out"))))
                     (lit " a ")))
     = [].
Proof.
  split.
  - refine (proj1 (@provider_called_once ascii_only no_message
                     (sample_env sample_token (gives (Raised (lit "timed out"))))
                     (lit "  a cat on a sofa ") _ _) _).
    + vm_compute. reflexivity.
    + split; [reflexivity|]. split; [split; vm_compute; lia | discriminate].
  - refine (proj2 (@provider_called_once ascii_only no_message
                     (sample_env sample_token (gives (Raised (lit "timed out"))))
                     (lit " a ")
                     (spec_enhance ascii_only (strip (lit " a "))) _) _).
    + apply enhance_prompt_returns.
    + intros [_ [[Hlo _] _]]. vm_compute in Hlo. lia.
Defined.

(** X2: an ERROR line is logged exactly when the answer is HTTP 500, a
    WARNING line exactly when it is HTTP 400, and every logged line is INFO
    exactly when a success envelope is returned. *)
Theorem log_level_follows_answer (unicode_lower : str -> N -> str -> str)
  (utf8_error_message : bytes -> str) (env : environment) (prompt : str) :
  (In ERROR
      (levels (trace (generate_video unicode_lower utf8_error_message env prompt)))
   <-> exists detail,
        raises (generate_video unicode_lower utf8_error_message env prompt)
          (HTTPException 500 detail))
  /\ (In WARNING
         (levels (trace (generate_video unicode_lower utf8_error_message env
                           prompt)))
      <-> exists detail,
           raises (generate_video unicode_lower utf8_error_message env prompt)
             (HTTPException 400 detail))
  /\ (forallb (level_eqb INFO)
        (levels (trace (generate_video unicode_lower utf8_error_message env
                          prompt))) = true
      <-> exists r,
           returns (generate_video unicode_lower utf8_error_message env prompt)
             r).
Proof.
  destruct (generate_video_cases unicode_lower utf8_error_message env prompt)
    as [[Htok Hrun] | [[Htok [Hs Hrun]] | [[Htok [Hs [Hl Hrun]]]
       | [[Htok [Hv [Hc Hrun]]] | [[Htok [Hv [call [msg [Hc [_ Hrun]]]]]]
       | [Htok [Hv [call [vb [Hc [_ [_ Hrun]]]]]]]]]]]];
    open_run Hrun; cbn [In forallb level_eqb andb];
    repeat split;
    try (intros [x Hx]; discriminate Hx);
    try (intros _; eexists; reflexivity);
    try discriminate;
    try (intros H; repeat destruct H as [H | H]; solve [discriminate H | contradiction H]);
    try (intros; tauto).
Qed.

Lemma log_level_follows_answer_witness :
  In WARNING
    (levels (trace (generate_video ascii_only no_message
                      (sample_env sample_token (gives (Returned None)))
                      (lit "hi")))).
Proof.
  apply (proj2 (proj1 (proj2 (@log_level_follows_answer ascii_only no_message
                   (sample_env sample_token (gives (Returned None)))
                   (lit "hi"))))).
  eexists. vm_compute. reflexivity.
Defined.

(** X3: whatever the request and the provider do, an error answer is one
    of four: HTTP 500 with the configuration detail, HTTP 400 with one of
    the two length details, or HTTP 500 whose detail starts with "Video
    generation failed: ". *)
Theorem error_answers_are_closed (unicode_lower : str -> N -> str -> str)
  (utf8_error_message : bytes -> str) (env : environment) (prompt : str)
  (e : http_exception) :
  raises (generate_video unicode_lower utf8_error_message env prompt) e ->
  e = HTTPException 500 configuration_detail
  \/ e = HTTPException 400 (lit "Prompt must be at least 3 characters long")
  \/ e = HTTPException 400 (lit "Prompt must be less than 200 characters")
  \/ exists error_message,
       e = HTTPException 500 (lit "Video generation failed: " ++ error_message).
Proof.
  unfold raises.
  destruct (generate_video_cases unicode_lower utf8_error_message env prompt)
    as [[Htok Hrun] | [[Htok [Hs Hrun]] | [[Htok [Hs [Hl Hrun]]]
       | [[Htok [Hv [Hc Hrun]]] | [[Htok [Hv [call [msg [Hc [_ Hrun]]]]]]
       | [Htok [Hv [call [vb [Hc [_ [_ Hrun]]]]]]]]]]]];
    rewrite Hrun; cbn [snd]; intros H; try discriminate H;
    injection H as <-; unfold failure; eauto 6.
Qed.

Lemma error_answers_are_closed_witness :
  exists error_message,
    HTTPException 500 (lit "Video generation failed: quota exceeded")
    = HTTPException 500 (lit "Video generation failed: " ++ error_message).
Proof.
  destruct (@error_answers_are_closed ascii_only no_message
              (sample_env sample_token (gives (Raised (lit "quota exceeded"))))
              (lit "a cat on a sofa")
              (HTTPException 500 (lit "Video generation failed: quota exceeded")))
    as [H | [H | [H | H]]].
  - vm_compute. reflexivity.
  - discriminate H.
  - discriminate H.
  - discriminate H.
  - exact H.
Defined.

(** X4: when the inference client was never bound (its construction failed
    at start-up), a valid request with a credential gets HTTP 500 with
    detail "Video generation failed: name 'client' is not defined", and the
    provider is not called. *)
Theorem unbound_client_fails (unicode_lower : str -> N -> str -> str)
  (utf8_error_message : bytes -> str) (env : environment) (prompt : str) :
  truthy (HF_TOKEN env) = true ->
  valid_length prompt ->
  client env = None ->
  raises (generate_video unicode_lower utf8_error_message env prompt)
    (HTTPException 500
       (lit "Video generation failed: name 'client' is not defined"))
  /\ calls (trace (generate_video unicode_lower utf8_error_message env prompt))
     = [].
Proof.
  intros Htok Hvalid Hclient.
  pose proof (@run_no_client unicode_lower utf8_error_message env prompt
                Htok Hvalid Hclient) as Hrun.
  split; open_run Hrun; reflexivity.
Qed.

Lemma unbound_client_fails_witness :
  raises (generate_video ascii_only no_message
            {| HF_TOKEN := sample_token; client := None;
               now := lit "2025-08-20 10:15:00" |}
            (lit "a cat on a sofa"))
    (HTTPException 500
       (lit "Video generation failed: name 'client' is not defined")).
Proof.
  refine (proj1 (@unbound_client_fails ascii_only no_message
            {| HF_TOKEN := sample_token; client := None;
               now := lit "2025-08-20 10:15:00" |}
            (lit "a cat on a sofa") _ _ _)).
  - reflexivity.
  - split; vm_compute; lia.
  - reflexivity.
Defined.

(** ** The base64 text and its inverse *)

Lemma land63 (x : N) : N.land x 63 = (x mod 64)%N.
Proof. change 63%N with (N.ones 6). now rewrite N.land_ones. Qed.

Lemma land255 (x : N) : N.land x 255 = (x mod 256)%N.
Proof. change 255%N with (N.ones 8). now rewrite N.land_ones. Qed.

Lemma sextets_recompose (n : N) :
  (n < 16777216)%N ->
  (N.land (N.shiftr n 18) 63 * 262144 + N.land (N.shiftr n 12) 63 * 4096
   + N.land (N.shiftr n 6) 63 * 64 + N.land (N.shiftr n 0) 63 = n)%N.
Proof.
  intros Hn. rewrite !land63, !N.shiftr_div_pow2.
  change (2 ^ 18)%N with 262144%N. change (2 ^ 12)%N with 4096%N.
  change (2 ^ 6)%N with 64%N. change (2 ^ 0)%N with 1%N.
  zify. Z.to_euclidean_division_equations. lia.
Qed.

Lemma index_of_nth (j : nat) :
  j < 64 -> index_of (nth j alphabet "A"%byte) alphabet = Some (N.of_nat j).
Proof.
  intros Hj.
  do 64 (destruct j as [|j]; [vm_compute; reflexivity|]). lia.
Qed.

Lemma b64encode_length (bs : bytes) :
  List.length (b64encode bs) = 4 * ((List.length bs + 2) / 3).
Proof.
  assert (H : forall n bs, List.length bs <= n ->
             List.length (b64encode bs) = 4 * ((List.length bs + 2) / 3)).
  { induction n as [|n IH]; intros [|a [|b [|c rest]]] Hlen;
      cbn [b64encode List.length] in *; try reflexivity; try lia.
    rewrite IH by lia.
    replace (S (S (S (List.length rest))) + 2) with ((List.length rest + 2) + 1 * 3) by lia.
    rewrite Nat.div_add by lia. lia. }
  apply (H (List.length bs)). lia.
Qed.

Lemma land63_lt (x : N) : (N.land x 63 < 64)%N.
Proof. rewrite land63. now apply N.mod_lt. Qed.

Lemma index_of_sextet (n i : N) :
  index_of (sextet n i) alphabet = Some (N.land (N.shiftr n (6 * i)) 63).
Proof.
  unfold sextet. pose proof (land63_lt (N.shiftr n (6 * i))) as Hk.
  rewrite index_of_nth by lia. now rewrite N2Nat.id.
Qed.

Lemma index_of_pad : index_of pad alphabet = None.
Proof. vm_compute. reflexivity. Qed.

Lemma to_N_lt (b : byte) : (Byte.to_N b < 256)%N.
Proof. pose proof (Byte.to_N_bounded b). lia. Qed.

Lemma byte_at_group (a b c : byte) :
  let n := (Byte.to_N a * 65536 + Byte.to_N b * 256 + Byte.to_N c)%N in
  byte_at n 2 = Some a /\ byte_at n 1 = Some b /\ byte_at n 0 = Some c.
Proof.
  intros n. subst n. unfold byte_at.
  pose proof (to_N_lt a) as Ha. pose proof (to_N_lt b) as Hb.
  pose proof (to_N_lt c) as Hc.
  rewrite !land255, !N.shiftr_div_pow2.
  change (2 ^ (8 * 2))%N with 65536%N. change (2 ^ (8 * 1))%N with 256%N.
  change (2 ^ (8 * 0))%N with 1%N.
  repeat split.
  - rewrite <- (Byte.of_to_N a). f_equal.
    zify. Z.to_euclidean_division_equations. lia.
  - rewrite <- (Byte.of_to_N b). f_equal.
    zify. Z.to_euclidean_division_equations. lia.
  - rewrite <- (Byte.of_to_N c). f_equal.
    zify. Z.to_euclidean_division_equations. lia.
Qed.

Lemma group_number (a b c : byte) :
  (Byte.to_N a * 65536 + Byte.to_N b * 256 + Byte.to_N c < 16777216)%N.
Proof.
  pose proof (to_N_lt a). pose proof (to_N_lt b). pose proof (to_N_lt c). lia.
Qed.

Lemma b64decode_group (a b c : byte) (rest : bytes) :
  b64decode (b64encode (a :: b :: c :: rest))
  = match b64decode (b64encode rest) with
    | Some bs => Some (a :: b :: c :: bs)
    | None => None
    end.
Proof.
  cbn [b64encode]. cbv zeta.
  cbn [b64decode]. rewrite !index_of_sextet.
  change (6 * 3)%N with 18%N. change (6 * 2)%N with 12%N.
  change (6 * 1)%N with 6%N. change (6 * 0)%N with 0%N. cbv zeta.
  rewrite (@sextets_recompose _ (group_number a b c)).
  pose proof (byte_at_group a b c) as H. cbv zeta in H.
  destruct H as [H2 [H1 H0]]. rewrite H2, H1, H0.
  cbn [some_bytes fold_right].
  destruct (b64decode (b64encode rest)); reflexivity.
Qed.

Lemma b64decode_one (a : byte) : b64decode (b64encode [a]) = Some [a].
Proof.
  cbn [b64encode]. cbv zeta.
  pose proof (to_N_lt a) as Ha.
  cbn [b64decode]. rewrite !index_of_sextet, index_of_pad.
  change (Byte.eqb pad pad) with true. cbn [andb]. cbv zeta.
  change (6 * 3)%N with 18%N. change (6 * 2)%N with 12%N.
  replace (N.land (N.shiftr (Byte.to_N a * 65536) 18) 63 * 262144
           + N.land (N.shiftr (Byte.to_N a * 65536) 12) 63 * 4096)%N
    with (Byte.to_N a * 65536 + Byte.to_N x00 * 256 + Byte.to_N x00)%N.
  - pose proof (byte_at_group a x00 x00) as H. cbv zeta in H.
    destruct H as [H2 _]. rewrite H2. reflexivity.
  - rewrite !land63, !N.shiftr_div_pow2.
    change (2 ^ 18)%N with 262144%N. change (2 ^ 12)%N with 4096%N.
    change (Byte.to_N x00) with 0%N.
    zify. Z.to_euclidean_division_equations. lia.
Qed.

Lemma b64decode_two (a b : byte) : b64decode (b64encode [a; b]) = Some [a; b].
Proof.
  cbn [b64encode]. cbv zeta.
  pose proof (to_N_lt a) as Ha. pose proof (to_N_lt b) as Hb.
  cbn [b64decode]. rewrite !index_of_sextet, index_of_pad.
  change (Byte.eqb pad pad) with true. cbv zeta.
  change (6 * 3)%N with 18%N. change (6 * 2)%N with 12%N.
  change (6 * 1)%N with 6%N.
  replace (N.land (N.shiftr (Byte.to_N a * 65536 + Byte.to_N b * 256) 18) 63
             * 262144
           + N.land (N.shiftr (Byte.to_N a * 65536 + Byte.to_N b * 256) 12) 63
             * 4096
           + N.land (N.shiftr (Byte.to_N a * 65536 + Byte.to_N b * 256) 6) 63
             * 64)%N
    with (Byte.to_N a * 65536 + Byte.to_N b * 256 + Byte.to_N x00)%N.
  - pose proof (byte_at_group a b x00) as H. cbv zeta in H.
    destruct H as [H2 [H1 _]]. rewrite H2, H1. reflexivity.
  - rewrite !land63, !N.shiftr_div_pow2.
    change (2 ^ 18)%N with 262144%N. change (2 ^ 12)%N with 4096%N.
    change (2 ^ 6)%N with 64%N. change (Byte.to_N x00) with 0%N.
    zify. Z.to_euclidean_division_equations. lia.
Qed.

Lemma b64decode_b64encode (bs : bytes) : b64decode (b64encode bs) = Some bs.
Proof.
  assert (H : forall n bs, List.length bs <= n ->
                           b64decode (b64encode bs) = Some bs).
  { induction n as [|n IH]; intros [|a [|b [|c rest]]] Hlen;
      cbn [List.length] in Hlen; try lia;
      [reflexivity | reflexivity | apply b64decode_one | apply b64decode_two |].
    rewrite b64decode_group, IH by lia. reflexivity. }
  apply (H (List.length bs)). lia.
Qed.

(** ** The success envelope *)

Lemma text_bytes_ascii_text (bs : bytes) : text_bytes (ascii_text bs) = Some bs.
Proof.
  unfold text_bytes, ascii_text.
  induction bs as [|b bs IH]; [reflexivity|].
  cbn [List.map some_bytes fold_right]. fold (some_bytes (List.map Byte.of_N (List.map Byte.to_N bs))).
  now rewrite Byte.of_to_N, IH.
Qed.

Lemma decode_data_uri_encode (bs : bytes) :
  decode_data_uri (lit "data:video/mp4;base64," ++ ascii_text (b64encode bs))
  = Some bs.
Proof.
  unfold decode_data_uri.
  replace (startswith (lit "data:video/mp4;base64," ++ ascii_text (b64encode bs))
             (lit "data:video/mp4;base64,")) with true
    by (symmetry; apply startswith_spec; eexists; reflexivity).
  change (skipn 22 (lit "data:video/mp4;base64," ++ ascii_text (b64encode bs)))
    with (ascii_text (b64encode bs)).
  now rewrite text_bytes_ascii_text, b64decode_b64encode.
Qed.

(** X5: in every success envelope the original prompt is the trimmed
    input, has no white space at either end and 3 to 200 characters, and
    the enhanced prompt is the enhancement of it and starts with it. *)
Theorem envelope_prompts (unicode_lower : str -> N -> str -> str)
  (utf8_error_message : bytes -> str) (env : environment) (prompt : str)
  (r : response_data) :
  returns (generate_video unicode_lower utf8_error_message env prompt) r ->
  original_prompt r = strip prompt
  /\ trimmed (original_prompt r) = true
  /\ 3 <= len (original_prompt r) <= 200
  /\ returns (enhance_prompt (E:=str) unicode_lower (original_prompt r))
       (enhanced_prompt r)
  /\ startswith (enhanced_prompt r) (original_prompt r) = true.
Proof.
  unfold returns at 1.
  destruct (generate_video_cases unicode_lower utf8_error_message env prompt)
    as [[Htok Hrun] | [[Htok [Hs Hrun]] | [[Htok [Hs [Hl Hrun]]]
       | [[Htok [Hv [Hc Hrun]]] | [[Htok [Hv [call [msg [Hc [_ Hrun]]]]]]
       | [Htok [[Hlo Hhi] [call [vb [Hc [_ [_ Hrun]]]]]]]]]]]];
    rewrite Hrun; cbn [snd]; intros H; try discriminate H.
  injection H as <-. cbn [original_prompt enhanced_prompt].
  split; [reflexivity|]. split; [apply strip_trimmed|].
  split; [pose proof (strip_length prompt); lia|].
  split; [apply enhance_prompt_returns|].
  apply startswith_spec. unfold spec_enhance. rewrite strip_strip.
  eexists. reflexivity.
Qed.

Lemma envelope_prompts_witness :
  original_prompt
    {| status := lit "success";
       video_data := lit "data:video/mp4;base64,TWFuIQ==";
       enhanced_prompt :=
         lit "A cat on a sofa, cinematic lighting, professional cinematography, high quality, smooth motion, 5 seconds duration, HD quality, smooth transitions, professional grade";
       original_prompt := lit "A cat on a sofa";
       model_used := lit "Wan-AI/Wan2.2-TI2V-5B";
       generation_timestamp := lit "2025-08-20 10:15:00";
       video_size_bytes := 4;
       enhancement_applied := true |}
  = strip (lit "  A cat on a sofa ").
Proof.
  refine (proj1 (@envelope_prompts ascii_only no_message
             (sample_env sample_token
                (gives (Returned (Some (list_byte_of_string "Man!")))))
             (lit "  A cat on a sofa ") _ _)).
  vm_compute. reflexivity.
Defined.

(** X6: in every success envelope the byte count is positive and is the
    length of what the provider returned for the enhanced prompt, the data
    URI is 22 characters of prefix and four base64 characters for every
    three bytes (rounded up), and decoding the data URI gives the provider's
    bytes back. *)
Theorem envelope_payload (unicode_lower : str -> N -> str -> str)
  (utf8_error_message : bytes -> str) (env : environment) (prompt : str)
  (r : response_data) :
  returns (generate_video unicode_lower utf8_error_message env prompt) r ->
  exists call video_bytes,
    client env = Some call
    /\ call (enhanced_prompt r) (model_used r) = Returned (Some video_bytes)
    /\ video_size_bytes r = List.length video_bytes
    /\ 0 < video_size_bytes r
    /\ len (video_data r) = 22 + 4 * ((video_size_bytes r + 2) / 3)
    /\ decode_data_uri (video_data r) = Some video_bytes.
Proof.
  unfold returns.
  destruct (generate_video_cases unicode_lower utf8_error_message env prompt)
    as [[Htok Hrun] | [[Htok [Hs Hrun]] | [[Htok [Hs [Hl Hrun]]]
       | [[Htok [Hv [Hc Hrun]]] | [[Htok [Hv [call [msg [Hc [_ Hrun]]]]]]
       | [Htok [Hv [call [vb [Hc [Hcall [Hne Hrun]]]]]]]]]]]];
    rewrite Hrun; cbn [snd]; intros H; try discriminate H.
  injection H as <-.
  cbn [enhanced_prompt model_used video_size_bytes video_data].
  exists call, vb. split; [exact Hc|]. split; [exact Hcall|].
  split; [reflexivity|].
  split; [destruct vb; [congruence | cbn [List.length]; lia]|].
  split; [|apply decode_data_uri_encode].
  unfold len, ascii_text. cbn [List.length].
  rewrite length_map, b64encode_length. reflexivity.
Qed.

Lemma envelope_payload_witness :
  exists call video_bytes,
    client (sample_env sample_token
              (gives (Returned (Some (list_byte_of_string "Man!")))))
    = Some call
    /\ call (lit "A cat on a sofa, cinematic lighting, professional cinematography, high quality, smooth motion, 5 seconds duration, HD quality, smooth transitions, professional grade")
         (lit "Wan-AI/Wan2.2-TI2V-5B")
       = Returned (Some video_bytes)
    /\ 4 = List.length video_bytes
    /\ 0 < 4
    /\ len (lit "data:video/mp4;base64,TWFuIQ==") = 22 + 4 * ((4 + 2) / 3)
    /\ decode_data_uri (lit "data:video/mp4;base64,TWFuIQ==") = Some video_bytes.
Proof.
  refine (@envelope_payload ascii_only no_message
            (sample_env sample_token
               (gives (Returned (Some (list_byte_of_string "Man!")))))
            (lit "  A cat on a sofa ")
            {| status := lit "success";
               video_data := lit "data:video/mp4;base64,TWFuIQ==";
               enhanced_prompt :=
                 lit "A cat on a sofa, cinematic lighting, professional cinematography, high quality, smooth motion, 5 seconds duration, HD quality, smooth transitions, professional grade";
               original_prompt := lit "A cat on a sofa";
               model_used := lit "Wan-AI/Wan2.2-TI2V-5B";
               generation_timestamp := lit "2025-08-20 10:15:00";
               video_size_bytes := 4;
               enhancement_applied := true |} _).
  vm_compute. reflexivity.
Defined.

(** X7: white space added before or after a prompt does not change the
    answer, as long as the padded prompt still has at most 200
    characters. *)
Theorem padding_is_ignored (unicode_lower : str -> N -> str -> str)
  (utf8_error_message : bytes -> str) (env : environment)
  (before prompt after : str) :
  forallb isspace before = true ->
  forallb isspace after = true ->
  len (before ++ prompt ++ after) <= 200 ->
  snd (generate_video unicode_lower utf8_error_message env
         (before ++ prompt ++ after))
  = snd (generate_video unicode_lower utf8_error_message env prompt).
Proof.
  intros Ha Hb Hlen.
  assert (Hp : len prompt <= 200).
  { unfold len in *. rewrite !length_app in Hlen. lia. }
  unfold generate_video.
  destruct (truthy (HF_TOKEN env)); [|reflexivity]. cbn [negb].
  rewrite (strip_padding _ prompt _ Ha Hb).
  destruct (Nat.ltb_spec (len (strip prompt)) 3) as [Hs | Hs].
  - rewrite !orb_true_r. reflexivity.
  - rewrite !orb_false_r.
    assert (Hne : is_empty prompt = false).
    { destruct prompt; [rewrite strip_nil in Hs; cbn in Hs; lia | reflexivity]. }
    assert (Hne' : is_empty (before ++ prompt ++ after) = false).
    { destruct prompt as [|c p]; [discriminate Hne|].
      destruct before; reflexivity. }
    rewrite Hne, Hne'.
    apply Nat.ltb_ge in Hlen, Hp. rewrite Hlen, Hp. reflexivity.
Qed.

Lemma padding_is_ignored_witness :
  snd (generate_video ascii_only no_message
         (sample_env sample_token
            (gives (Returned (Some (list_byte_of_string "Man!")))))
         (lit " 	" ++ lit "a cat on a sofa" ++ lit "  "))
  = snd (generate_video ascii_only no_message
           (sample_env sample_token
              (gives (Returned (Some (list_byte_of_string "Man!")))))
           (lit "a cat on a sofa")).
Proof.
  apply (@padding_is_ignored ascii_only no_message
           (sample_env sample_token
              (gives (Returned (Some (list_byte_of_string "Man!")))))
           (lit " 	") (lit "a cat on a sofa") (lit "  ")).
  - reflexivity.
  - reflexivity.
  - vm_compute. lia.
Defined.

(** ** Diagnostics and the health check *)

(** X8: when the provider raises, at most one diagnostic line is logged,
    chosen by the first of "rate limit", "quota", "unauthorized" that occurs
    in the lower-cased message; a message with none of them logs none. *)
Theorem diagnostic_priority (unicode_lower : str -> N -> str -> str)
  (utf8_error_message : bytes -> str) (env : environment) (prompt : str)
  (call : str -> str -> provider_result) (enhanced message : str) :
  truthy (HF_TOKEN env) = true ->
  valid_length prompt ->
  client env = Some call ->
  returns (enhance_prompt (E:=str) unicode_lower (strip prompt)) enhanced ->
  call enhanced model_name = Raised message ->
  diagnostics
    (trace (generate_video unicode_lower utf8_error_message env prompt))
  = (if contains (lit "rate limit") (lower unicode_lower message)
     then [RateLimitExceeded]
     else if contains (lit "quota") (lower unicode_lower message)
     then [QuotaExceeded]
     else if contains (lit "unauthorized") (lower unicode_lower message)
     then [AuthenticationFailed]
     else []).
Proof.
  intros Htok Hvalid Hclient Henh Hcall.
  apply enhanced_is_spec in Henh. subst enhanced.
  pose proof (@run_raised unicode_lower utf8_error_message env prompt call
                Htok Hvalid Hclient message Hcall) as Hrun.
  open_run Hrun; reflexivity.
Qed.

Lemma diagnostic_priority_witness :
  diagnostics
    (trace (generate_video ascii_only no_message
              (sample_env sample_token
                 (gives (Raised (lit "Unauthorized: QUOTA and Rate Limit hit"))))
              (lit "a cat on a sofa")))
  = [RateLimitExceeded].
Proof.
  refine (@diagnostic_priority ascii_only no_message
            (sample_env sample_token
               (gives (Raised (lit "Unauthorized: QUOTA and Rate Limit hit"))))
            (lit "a cat on a sofa")
            (gives (Raised (lit "Unauthorized: QUOTA and Rate Limit hit")))
            (spec_enhance ascii_only (strip (lit "a cat on a sofa")))
            (lit "Unauthorized: QUOTA and Rate Limit hit") _ _ _ _ _).
  - reflexivity.
  - split; vm_compute; lia.
  - reflexivity.
  - apply enhance_prompt_returns.
  - reflexivity.
Defined.

Lemma health_api_configured (env : environment) (isoformat_now : str) :
  get (lit "api_configured") (snd (health_check env isoformat_now))
  = Some (Bool (truthy (HF_TOKEN env))).
Proof. reflexivity. Qed.

Lemma failure_is_not_configuration (error_message : str) :
  failure error_message <> HTTPException 500 configuration_detail.
Proof. unfold failure. intros H. vm_compute in H. discriminate H. Qed.

(** X9: the health check reports [api_configured] true exactly when no
    request to generate-video is answered with the configuration error, and
    false exactly when every request is. *)
Theorem health_reports_credential (unicode_lower : str -> N -> str -> str)
  (utf8_error_message : bytes -> str) (env : environment)
  (isoformat_now : str) :
  (get (lit "api_configured") (snd (health_check env isoformat_now))
   = Some (Bool true)
   <-> forall prompt,
        ~ raises (generate_video unicode_lower utf8_error_message env prompt)
            (HTTPException 500 configuration_detail))
  /\ (get (lit "api_configured") (snd (health_check env isoformat_now))
      = Some (Bool false)
      <-> forall prompt,
           raises (generate_video unicode_lower utf8_error_message env prompt)
             (HTTPException 500 configuration_detail)).
Proof.
  rewrite health_api_configured.
  assert (Hyes : truthy (HF_TOKEN env) = true ->
                 forall prompt,
                   ~ raises (generate_video unicode_lower utf8_error_message
                               env prompt)
                       (HTTPException 500 configuration_detail)).
  { intros Htok prompt. unfold raises.
    destruct (generate_video_cases unicode_lower utf8_error_message env prompt)
      as [[Htok' Hrun] | [[_ [Hs Hrun]] | [[_ [Hs [Hl Hrun]]]
         | [[_ [Hv [Hc Hrun]]] | [[_ [Hv [call [msg [Hc [_ Hrun]]]]]]
         | [_ [Hv [call [vb [Hc [_ [_ Hrun]]]]]]]]]]]];
      [congruence | | | | |]; rewrite Hrun; cbn [snd]; intros H;
      try discriminate H; injection H as H;
      now apply (@failure_is_not_configuration _ (f_equal _ H)) || idtac. }
  assert (Hno : truthy (HF_TOKEN env) = false ->
                forall prompt,
                  raises (generate_video unicode_lower utf8_error_message
                            env prompt)
                    (HTTPException 500 configuration_detail)).
  { intros Htok prompt. unfold raises. now rewrite run_no_token. }
  destruct (truthy (HF_TOKEN env)) eqn:Htok; split; split.
  - intros _. now apply Hyes.
  - reflexivity.
  - discriminate.
  - intros H. exfalso. apply (Hyes eq_refl []), H.
  - discriminate.
  - intros H. exfalso. apply (H []). now apply Hno.
  - intros _. now apply Hno.
  - reflexivity.
Qed.

Lemma health_reports_credential_witness :
  raises (generate_video ascii_only no_message
            (sample_env (Some []) (gives (Returned None)))
            (lit "a cat on a sofa"))
    (HTTPException 500 configuration_detail).
Proof.
  refine (proj1 (proj2 (@health_reports_credential ascii_only no_message
                          (sample_env (Some []) (gives (Returned None)))
                          (lit "2025-08-20T10:15:00.000001")))
            _ (lit "a cat on a sofa")).
  reflexivity.
Defined.

(** ** More on the category chain *)

Lemma enhancement_database_injective (c c' : category) :
  enhancement_database c = enhancement_database c' -> c = c'.
Proof.
  destruct c, c'; intros H; try reflexivity; vm_compute in H; discriminate H.
Qed.

Lemma inr_eq (A B : Type) (x y : B) : @inr A B x = inr y -> x = y.
Proof. intros H. now injection H. Qed.

Lemma any_in_false (keywords : list str) (text : str) :
  any_in keywords text = false
  <-> forall keyword, In keyword keywords -> contains keyword text = false.
Proof.
  unfold any_in. rewrite <- not_true_iff_false, existsb_exists. split.
  - intros H keyword Hin. apply not_true_iff_false. intros Hc.
    apply H. now exists keyword.
  - intros H [keyword [Hin Hc]]. rewrite (H keyword Hin) in Hc. discriminate.
Qed.

Section Chain.

Variable unicode_lower : str -> N -> str -> str.
Variable E : Type.
Variable prompt : str.

Local Abbreviation text := (lower unicode_lower prompt).

Local Abbreviation output_with c :=
  (strip prompt ++ lit ", " ++ enhancement_database c
   ++ lit ", " ++ enhancement_database technical).

(** The output names its category. *)
Lemma enhance_prompt_category (c : category) :
  returns (enhance_prompt (E:=E) unicode_lower prompt) (output_with c)
  <-> first_match priority_rules text = c.
Proof.
  unfold returns. rewrite enhance_prompt_run. cbn [snd]. unfold spec_enhance.
  split.
  - intros H. apply inr_eq in H.
    apply app_inv_head in H. apply app_inv_head in H.
    apply app_inv_tail in H. now apply enhancement_database_injective.
  - intros ->. reflexivity.
Qed.

Lemma first_match_chain :
  first_match priority_rules text
  = if any_in portrait_keywords text then portrait
    else if any_in action_keywords text then action
    else if any_in nature_keywords text then nature
    else if any_in urban_keywords text then urban
    else cinematic.
Proof. reflexivity. Qed.

End Chain.

(** X10: the cinematic suffix is appended exactly when none of the 26
    keywords occurs in the lower-cased prompt. *)
Theorem cinematic_only_without_keywords (E : Type)
  (unicode_lower : str -> N -> str -> str) (prompt : str) :
  returns (enhance_prompt (E:=E) unicode_lower prompt)
    (strip prompt ++ lit ", " ++ enhancement_database cinematic
     ++ lit ", " ++ enhancement_database technical)
  <-> forall keyword,
       In keyword all_keywords ->
       contains keyword (lower unicode_lower prompt) = false.
Proof.
  rewrite enhance_prompt_category, first_match_chain.
  unfold all_keywords. split.
  - intros H keyword Hin.
    destruct (any_in portrait_keywords _) eqn:Hp; [discriminate H|].
    destruct (any_in action_keywords _) eqn:Ha; [discriminate H|].
    destruct (any_in nature_keywords _) eqn:Hn; [discriminate H|].
    destruct (any_in urban_keywords _) eqn:Hu; [discriminate H|].
    rewrite any_in_false in Hp, Ha, Hn, Hu.
    rewrite !in_app_iff in Hin. destruct Hin as [Hin | [Hin | [Hin | Hin]]]; auto.
  - intros H.
    assert (Hp : any_in portrait_keywords (lower unicode_lower prompt) = false).
    { apply any_in_false. intros k Hk. apply H. rewrite !in_app_iff. auto. }
    assert (Ha : any_in action_keywords (lower unicode_lower prompt) = false).
    { apply any_in_false. intros k Hk. apply H. rewrite !in_app_iff. auto. }
    assert (Hn : any_in nature_keywords (lower unicode_lower prompt) = false).
    { apply any_in_false. intros k Hk. apply H. rewrite !in_app_iff. auto. }
    assert (Hu : any_in urban_keywords (lower unicode_lower prompt) = false).
    { apply any_in_false. intros k Hk. apply H. rewrite !in_app_iff. auto. }
    now rewrite Hp, Ha, Hn, Hu.
Qed.

Lemma cinematic_only_without_keywords_witness :
  returns (enhance_prompt (E:=unit) ascii_only (lit "Two owls at midnight"))
    (strip (lit "Two owls at midnight") ++ lit ", "
     ++ enhancement_database cinematic
     ++ lit ", " ++ enhancement_database technical).
Proof.
  apply (proj2 (@cinematic_only_without_keywords unit ascii_only
                  (lit "Two owls at midnight"))).
  apply (proj1 (Forall_forall _ _)).
  repeat (constructor; [vm_compute; reflexivity|]). constructor.
Defined.

(** X11: below portrait the chain is exact as well: the action suffix is
    appended exactly when no portrait keyword and some action keyword
    occurs, the nature suffix when neither of those and some nature keyword
    occurs, the urban suffix when only an urban keyword occurs. *)
Theorem lower_priority_categories (E : Type)
  (unicode_lower : str -> N -> str -> str) (prompt : str) :
  (returns (enhance_prompt (E:=E) unicode_lower prompt)
     (strip prompt ++ lit ", " ++ enhancement_database action
      ++ lit ", " ++ enhancement_database technical)
   <-> any_in portrait_keywords (lower unicode_lower prompt) = false
       /\ any_in action_keywords (lower unicode_lower prompt) = true)
  /\ (returns (enhance_prompt (E:=E) unicode_lower prompt)
        (strip prompt ++ lit ", " ++ enhancement_database nature
         ++ lit ", " ++ enhancement_database technical)
      <-> any_in portrait_keywords (lower unicode_lower prompt) = false
          /\ any_in action_keywords (lower unicode_lower prompt) = false
          /\ any_in nature_keywords (lower unicode_lower prompt) = true)
  /\ (returns (enhance_prompt (E:=E) unicode_lower prompt)
        (strip prompt ++ lit ", " ++ enhancement_database urban
         ++ lit ", " ++ enhancement_database technical)
      <-> any_in portrait_keywords (lower unicode_lower prompt) = false
          /\ any_in action_keywords (lower unicode_lower prompt) = false
          /\ any_in nature_keywords (lower unicode_lower prompt) = false
          /\ any_in urban_keywords (lower unicode_lower prompt) = true).
Proof.
  rewrite !enhance_prompt_category, first_match_chain.
  destruct (any_in portrait_keywords _), (any_in action_keywords _),
    (any_in nature_keywords _), (any_in urban_keywords _);
    repeat split; intros; try discriminate; try tauto;
    repeat match goal with H : _ /\ _ |- _ => destruct H end;
    discriminate.
Qed.

Lemma lower_priority_categories_witness :
  returns (enhance_prompt (E:=unit) ascii_only (lit "A Racing CAR in the forest"))
    (strip (lit "A Racing CAR in the forest") ++ lit ", "
     ++ enhancement_database action
     ++ lit ", " ++ enhancement_database technical).
Proof.
  apply (proj2 (proj1 (@lower_priority_categories unit ascii_only
                         (lit "A Racing CAR in the forest")))).
  split; vm_compute; reflexivity.
Defined.

Lemma street_holds_tree (text : str) :
  contains (lit "street") text = true -> contains (lit "tree") text = true.
Proof.
  rewrite !contains_spec. intros [a [b ->]].
  exists (a ++ lit "s"), (lit "t" ++ b). rewrite <- !app_assoc. reflexivity.
Qed.

(** X12: the urban keyword "street" never selects the urban suffix: it
    holds the nature keyword "tree", which is tested first, so a prompt with
    "street" gets the portrait, action or nature suffix. *)
Theorem street_is_shadowed (E : Type)
  (unicode_lower : str -> N -> str -> str) (prompt : str) :
  contains (lit "street") (lower unicode_lower prompt) = true ->
  ~ returns (enhance_prompt (E:=E) unicode_lower prompt)
      (strip prompt ++ lit ", " ++ enhancement_database urban
       ++ lit ", " ++ enhancement_database technical)
  /\ exists c,
       (c = portrait \/ c = action \/ c = nature)
       /\ returns (enhance_prompt (E:=E) unicode_lower prompt)
            (strip prompt ++ lit ", " ++ enhancement_database c
             ++ lit ", " ++ enhancement_database technical).
Proof.
  intros Hstreet.
  assert (Hn : any_in nature_keywords (lower unicode_lower prompt) = true).
  { apply any_in_true. exists (lit "tree"). split.
    - vm_compute. tauto.
    - now apply street_holds_tree. }
  split.
  - rewrite enhance_prompt_category, first_match_chain, Hn.
    destruct (any_in portrait_keywords (lower unicode_lower prompt)),
      (any_in action_keywords (lower unicode_lower prompt));
      discriminate.
  - exists (first_match priority_rules (lower unicode_lower prompt)).
    split; [|now apply enhance_prompt_category].
    rewrite first_match_chain, Hn.
    destruct (any_in portrait_keywords (lower unicode_lower prompt)),
      (any_in action_keywords (lower unicode_lower prompt)); auto.
Qed.

Lemma street_is_shadowed_witness :
  ~ returns (enhance_prompt (E:=unit) ascii_only (lit "a quiet Street at dawn"))
      (strip (lit "a quiet Street at dawn") ++ lit ", "
       ++ enhancement_database urban
       ++ lit ", " ++ enhancement_database technical).
Proof.
  refine (proj1 (@street_is_shadowed unit ascii_only
                   (lit "a quiet Street at dawn") _)).
  vm_compute. reflexivity.
Defined.

(** ** Letter case and lengths *)

Lemma lower_from_ascii (unicode_lower : str -> N -> str -> str)
  (word before rest : str) :
  all_ascii word = true ->
  lower_from unicode_lower before (word ++ rest)
  = List.map ascii_lower word
    ++ lower_from unicode_lower (before ++ word) rest.
Proof.
  revert before. induction word as [|c word IH]; intros before Hw.
  - cbn [app List.map]. now rewrite app_nil_r.
  - cbn [all_ascii forallb] in Hw. apply andb_true_iff in Hw as [Hc Hw].
    cbn [app lower_from List.map]. unfold lower_char. rewrite Hc.
    cbn [app]. f_equal. rewrite (IH (before ++ [c]) Hw).
    now rewrite <- app_assoc.
Qed.

Lemma contains_any_case (unicode_lower : str -> N -> str -> str)
  (before word after : str) :
  all_ascii word = true ->
  contains (List.map ascii_lower word)
    (lower unicode_lower (before ++ word ++ after)) = true.
Proof.
  intros Hw. apply contains_spec. unfold lower.
  generalize (@nil N) as seen.
  induction before as [|c before IH]; intros seen.
  - cbn [app]. rewrite lower_from_ascii by exact Hw.
    now exists [], (lower_from unicode_lower (seen ++ word) after).
  - cbn [app lower_from]. destruct (IH (seen ++ [c])) as [x [y Hxy]].
    exists (lower_char unicode_lower seen c (before ++ word ++ after) ++ x), y.
    now rewrite Hxy, <- app_assoc.
Qed.

(** X13: keywords are matched whatever the letter case: a run of ASCII
    characters of the prompt that lower-cases to a keyword counts as that
    keyword, and when it is a portrait keyword the portrait suffix is
    appended. *)
Theorem keyword_case_is_ignored (E : Type)
  (unicode_lower : str -> N -> str -> str) (before word after : str) :
  all_ascii word = true ->
  (forall keywords,
      In (List.map ascii_lower word) keywords ->
      any_in keywords (lower unicode_lower (before ++ word ++ after)) = true)
  /\ (In (List.map ascii_lower word) portrait_keywords ->
      returns (enhance_prompt (E:=E) unicode_lower (before ++ word ++ after))
        (strip (before ++ word ++ after) ++ lit ", "
         ++ enhancement_database portrait
         ++ lit ", " ++ enhancement_database technical)).
Proof.
  intros Hw.
  assert (Hany : forall keywords,
             In (List.map ascii_lower word) keywords ->
             any_in keywords (lower unicode_lower (before ++ word ++ after))
             = true).
  { intros keywords Hin. apply any_in_true.
    exists (List.map ascii_lower word). split; [exact Hin|].
    now apply contains_any_case. }
  split; [exact Hany|].
  intros Hin. apply enhance_prompt_category.
  now rewrite first_match_chain, (Hany _ Hin).
Qed.

Lemma keyword_case_is_ignored_witness :
  returns (enhance_prompt (E:=unit) ascii_only
             (lit "THE " ++ lit "PeOpLe" ++ lit " OF THE FOREST"))
    (strip (lit "THE " ++ lit "PeOpLe" ++ lit " OF THE FOREST") ++ lit ", "
     ++ enhancement_database portrait
     ++ lit ", " ++ enhancement_database technical).
Proof.
  refine (proj2 (@keyword_case_is_ignored unit ascii_only
                   (lit "THE ") (lit "PeOpLe") (lit " OF THE FOREST") _) _).
  - reflexivity.
  - vm_compute. tauto.
Defined.

Lemma category_suffix_length (text : str) :
  65 <= len (enhancement_database (first_match priority_rules text)) <= 78.
Proof.
  unfold priority_rules, first_match.
  destruct (any_in portrait_keywords text), (any_in action_keywords text),
    (any_in nature_keywords text), (any_in urban_keywords text);
    vm_compute; lia.
Qed.

Lemma spec_enhance_length (unicode_lower : str -> N -> str -> str)
  (prompt : str) :
  len (strip prompt) + 139 <= len (spec_enhance unicode_lower prompt)
  <= len (strip prompt) + 152.
Proof.
  unfold spec_enhance.
  pose proof (category_suffix_length (lower unicode_lower prompt)) as Hc.
  unfold len in *. rewrite !length_app.
  change (List.length (lit ", ")) with 2.
  change (List.length (enhancement_database technical)) with 70.
  lia.
Qed.

(** X14: the enhanced prompt is the trimmed prompt and 139 to 152 further
    characters, and it ends with the technical suffix. *)
Theorem enhanced_length (E : Type) (unicode_lower : str -> N -> str -> str)
  (prompt enhanced : str) :
  returns (enhance_prompt (E:=E) unicode_lower prompt) enhanced ->
  len (strip prompt) + 139 <= len enhanced <= len (strip prompt) + 152
  /\ exists body,
       enhanced
       = body
         ++ lit ", 5 seconds duration, HD quality, smooth transitions, professional grade".
Proof.
  unfold returns. rewrite enhance_prompt_run. cbn [snd]. intros H.
  apply inr_eq in H. subst enhanced.
  split; [apply spec_enhance_length|].
  exists (strip prompt ++ lit ", "
          ++ enhancement_database
               (first_match priority_rules (lower unicode_lower prompt))).
  unfold spec_enhance. rewrite <- !app_assoc. reflexivity.
Qed.

Lemma enhanced_length_witness :
  len (strip (lit " a dog ")) + 139
  <= len (lit "a dog, cinematic lighting, professional cinematography, high quality, smooth motion, 5 seconds duration, HD quality, smooth transitions, professional grade")
  <= len (strip (lit " a dog ")) + 152.
Proof.
  refine (proj1 (@enhanced_length unit ascii_only (lit " a dog ") _ _)).
  vm_compute. reflexivity.
Defined.

(** X15: whatever is sent to the provider has between 142 and 352
    characters and goes to the model "Wan-AI/Wan2.2-TI2V-5B". *)
Theorem provider_prompt_bounded (unicode_lower : str -> N -> str -> str)
  (utf8_error_message : bytes -> str) (env : environment)
  (prompt sent model : str) :
  In (sent, model)
     (calls (trace (generate_video unicode_lower utf8_error_message env prompt))) ->
  142 <= len sent <= 352 /\ model = lit "Wan-AI/Wan2.2-TI2V-5B".
Proof.
  pose proof (spec_enhance_length unicode_lower (strip prompt)) as Hlen.
  rewrite strip_strip in Hlen. pose proof (strip_length prompt) as Hs.
  destruct (generate_video_cases unicode_lower utf8_error_message env prompt)
    as [[Htok Hrun] | [[Htok [Hs' Hrun]] | [[Htok [Hs' [Hl Hrun]]]
       | [[Htok [Hv [Hc Hrun]]] | [[Htok [[Hlo Hhi] [call [msg [Hc [_ Hrun]]]]]]
       | [Htok [[Hlo Hhi] [call [vb [Hc [_ [_ Hrun]]]]]]]]]]]];
    unfold trace; rewrite Hrun; cbn [fst];
    rewrite ?calls_app, ?calls_started, ?calls_failure; cbn [calls app In];
    intros H; try contradiction H;
    destruct H as [H | []]; injection H as <- <-;
    (split; [lia | reflexivity]).
Qed.

Lemma provider_prompt_bounded_witness :
  142 <= len (spec_enhance ascii_only (lit "cat")) <= 352
  /\ model_name = lit "Wan-AI/Wan2.2-TI2V-5B".
Proof.
  refine (@provider_prompt_bounded ascii_only no_message
            (sample_env sample_token (gives (Returned None)))
            (lit "cat") _ _ _).
  vm_compute. left. reflexivity.
Defined.

(** ** The base64 text *)

Lemma sextet_character (n i : N) : b64_character (sextet n i) = true.
Proof.
  unfold sextet. pose proof (land63_lt (N.shiftr n (6 * i))) as Hk.
  assert (H : forall j, j < 64 ->
                        b64_character (nth j alphabet "A"%byte) = true).
  { intros j Hj.
    do 64 (destruct j as [|j]; [vm_compute; reflexivity|]). lia. }
  apply H. lia.
Qed.

(** X16: the base64 text of [n] bytes has four characters for every three
    bytes, rounded up, all of them from the base64 alphabet or the padding
    sign. *)
Theorem b64encode_shape (bs : bytes) :
  List.length (b64encode bs) = 4 * ((List.length bs + 2) / 3)
  /\ forallb b64_character (b64encode bs) = true.
Proof.
  split; [apply b64encode_length|].
  assert (H : forall n bs, List.length bs <= n ->
                           forallb b64_character (b64encode bs) = true).
  { induction n as [|n IH]; intros [|a [|b [|c rest]]] Hlen;
      cbn [List.length] in Hlen; try lia;
      cbn [b64encode forallb]; cbv zeta; rewrite ?sextet_character;
      try reflexivity.
    apply IH. lia. }
  apply (H (List.length bs)). lia.
Qed.

(** X17: different byte strings have different base64 texts, so a
    [video_data] value stands for one video only. *)
Theorem b64encode_injective (x y : bytes) :
  b64encode x = b64encode y -> x = y.
Proof.
  intros H. pose proof (b64decode_b64encode x) as Hx.
  rewrite H, b64decode_b64encode in Hx. now injection Hx.
Qed.

Lemma b64encode_injective_witness :
  list_byte_of_string "Ma" = list_byte_of_string "Ma".
Proof.
  apply (@b64encode_injective (list_byte_of_string "Ma")
           (list_byte_of_string "Ma")).
  reflexivity.
Defined.

(** ** Blank prompts *)

Lemma strip_blank (s : str) : forallb isspace s = true -> strip s = [].
Proof.
  intros H. pose proof (@strip_padding s [] [] H eq_refl) as Hs.
  now rewrite app_nil_r in Hs.
Qed.

(** X18: with a credential configured, an empty or white-space-only
    prompt, however long, is rejected with HTTP 400 "Prompt must be at least
    3 characters long", and the provider is not called. *)
Theorem blank_prompt_rejected (unicode_lower : str -> N -> str -> str)
  (utf8_error_message : bytes -> str) (env : environment) (prompt : str) :
  truthy (HF_TOKEN env) = true ->
  forallb isspace prompt = true ->
  raises (generate_video unicode_lower utf8_error_message env prompt)
    (HTTPException 400 (lit "Prompt must be at least 3 characters long"))
  /\ calls (trace (generate_video unicode_lower utf8_error_message env prompt))
     = [].
Proof.
  intros Htok Hblank.
  assert (Hs : len (strip prompt) < 3).
  { rewrite (strip_blank _ Hblank). cbn. lia. }
  unfold raises, trace. rewrite (run_too_short _ _ _ _ Htok Hs).
  split; reflexivity.
Qed.

Lemma blank_prompt_rejected_witness :
  raises (generate_video ascii_only no_message
            (sample_env sample_token (gives (Returned None)))
            (repeat 32%N 250))
    (HTTPException 400 (lit "Prompt must be at least 3 characters long")).
Proof.
  refine (proj1 (@blank_prompt_rejected ascii_only no_message
                   (sample_env sample_token (gives (Returned None)))
                   (repeat 32%N 250) _ _)).
  - reflexivity.
  - vm_compute. reflexivity.
Defined.
